(** * TradeMood: scoring cache, trend aggregation and signal decision

    A shallow embedding of the core of the TradeMood repository
    ([trademood/core]): the [Analyzer] with its SQLite-backed score cache
    ([DatabaseHandler]), the [TrendGenerator] and the [SignalGenerator],
    with the [Pipeline] that runs them on the fetched items and the cache
    clearing of the dashboard.

    Modelling conventions.
    - Python [float] values are idealised as exact rationals ([Q]): no
      rounding, no NaN and no infinities.  A pandas NaN (an empty bin, an
      undefined rolling mean) is [None] in an [option Q].
    - A [datetime] is the integer number of microseconds since the epoch.
    - A [str] is a [string] whose characters are the code points below 256.
    - The shared [ErrorHandler] and the scorers are effects: every call
      is recorded in the [World] that the code threads through.
      [log_info] messages are not part of the [World]: a pipeline run
      returns the ones it writes.
    - [sqlite3] connection failures are outside the model; the one failure
      of a cache write that the code itself causes (a timestamp that is a
      [str], which has no [isoformat]) is modelled. *)

From Stdlib Require Import ZArith QArith Qabs Qminmax Lqa Lia.
From Stdlib Require Import List String Ascii Bool DecimalString.
From Stdlib Require Import Permutation Sorted.
Import ListNotations.

Local Open Scope Q_scope.

(** ** Python built-ins used by the code *)

Module Py.

(** [a < b] and [a > b] on floats. *)
Definition lt (a b : Q) : bool := negb (Qle_bool b a).
Definition gt (a b : Q) : bool := lt b a.

(** [min(a, b)]: the first argument unless the second is strictly
    smaller. *)
Definition min (a b : Q) : Q := if lt b a then b else a.

(** [abs(a)]. *)
Definition abs (a : Q) : Q := Qabs a.

(** [str.isspace] on one character: the characters [str.split()],
    [str.strip()] and the regular expression class [\s] treat as white
    space. *)
Definition isspace (c : ascii) : bool :=
  let n := nat_of_ascii c in
  ((9 <=? n) && (n <=? 13) || (28 <=? n) && (n <=? 32)
   || (n =? 133) || (n =? 160))%nat.

(** [str.lower] on one character. *)
Definition lower_char (c : ascii) : ascii :=
  let n := nat_of_ascii c in
  if ((65 <=? n) && (n <=? 90)
      || (192 <=? n) && (n <=? 222) && negb (n =? 215))%nat
  then ascii_of_nat (n + 32) else c.

(** The regular expression class [\w] on one character. *)
Definition isword (c : ascii) : bool :=
  let n := nat_of_ascii c in
  ((48 <=? n) && (n <=? 57) || (65 <=? n) && (n <=? 90) || (n =? 95)
   || (97 <=? n) && (n <=? 122)
   || (n =? 170) || (n =? 178) || (n =? 179) || (n =? 181) || (n =? 185)
   || (n =? 186) || (n =? 188) || (n =? 189) || (n =? 190)
   || (192 <=? n) && negb (n =? 215) && negb (n =? 247))%nat.

(** [s.lower()]. *)
Fixpoint lower (s : string) : string :=
  match s with
  | EmptyString => EmptyString
  | String c r => String (lower_char c) (lower r)
  end.

(** [s.split()]: the maximal runs of characters that are not white
    space.  [cur] is the run being read, reversed. *)
Definition flush (cur : list ascii) : list string :=
  match cur with
  | [] => []
  | _ :: _ => [string_of_list_ascii (rev cur)]
  end.

Fixpoint split_ws (cur : list ascii) (s : string) : list string :=
  match s with
  | EmptyString => flush cur
  | String c r =>
      if isspace c then flush cur ++ split_ws [] r
      else split_ws (c :: cur) r
  end.

Definition split (s : string) : list string := split_ws [] s.

(** [s.split(sep)] for a one-character separator: every separator cuts,
    so empty fields are kept and the empty string gives one empty
    field. *)
Fixpoint split_at (sep : ascii) (cur : list ascii) (s : string)
  : list string :=
  match s with
  | EmptyString => [string_of_list_ascii (rev cur)]
  | String c r =>
      if Ascii.eqb c sep
      then string_of_list_ascii (rev cur) :: split_at sep [] r
      else split_at sep (c :: cur) r
  end.

Definition split_sep (sep : ascii) (s : string) : list string :=
  split_at sep [] s.

(** [sep.join(l)]. *)
Fixpoint join (sep : string) (l : list string) : string :=
  match l with
  | [] => EmptyString
  | [x] => x
  | x :: r => (x ++ sep ++ join sep r)%string
  end.

(** [l.count(x)]. *)
Definition count (x : string) (l : list string) : nat :=
  List.length (filter (String.eqb x) l).

(** [s.strip()]. *)
Fixpoint lstrip (s : string) : string :=
  match s with
  | EmptyString => EmptyString
  | String c r => if isspace c then lstrip r else s
  end.

Definition string_rev (s : string) : string :=
  string_of_list_ascii (rev (list_ascii_of_string s)).

Definition strip (s : string) : string :=
  string_rev (lstrip (string_rev (lstrip s))).

(** [s[:n]]. *)
Fixpoint prefix_to (n : nat) (s : string) : string :=
  match n, s with
  | S k, String c r => String c (prefix_to k r)
  | _, _ => EmptyString
  end.

(** [sorted(l, key=snd, reverse=True)]: a stable sort by descending
    key, elements with equal keys keep their order. *)
Fixpoint insert_desc {A} (x : A * nat) (l : list (A * nat))
  : list (A * nat) :=
  match l with
  | [] => [x]
  | y :: r =>
      if (snd y <=? snd x)%nat then x :: l else y :: insert_desc x r
  end.

Definition sorted_desc {A} (l : list (A * nat)) : list (A * nat) :=
  fold_right insert_desc [] l.

End Py.

(** ** The data model ([trademood/core/models]) *)

(** A value found in a [timestamp] field: a [datetime], or a [str] (the
    web scraper of the fetcher passes [datetime.now().isoformat()]). *)
Inductive PyTime : Type :=
| Datetime (us : Z)
| TimeStr (s : string).

Module SentimentResult.
Record t : Type := Build {
  symbol : string;
  text : string;
  source : string;
  timestamp : PyTime;
  vader_score : Q;
  bert_score : Q;
  normalized_score : Q;
  keywords : list string
}.
End SentimentResult.

Module TrendSignal.
Record t : Type := Build {
  timestamp : Z;
  short_term_trend : Q;
  medium_term_trend : Q;
  long_term_trend : Q;
  trend_strength : Q;
  change_direction : Z
}.
End TrendSignal.

Inductive Signal : Type := BUY | SELL | HOLD.

Module TradingSignal.
Record t : Type := Build {
  timestamp : Z;
  symbol : string;
  sentiment_score : Q;
  price : Q;
  signal : Signal;
  confidence : Q
}.
End TradingSignal.

(** ** SignalGenerator ([core/sentiment/signal_generator.py]) *)

Module SignalGenerator.

Record Thresholds : Type := {
  buy : Q;
  sell : Q;
  confidence_threshold : Q
}.

(** [thresholds or {'buy': 0.5, 'sell': -0.5, 'confidence_threshold': 0.7}] *)
Definition default_thresholds : Thresholds :=
  {| buy := 0.5; sell := -0.5; confidence_threshold := 0.7 |}.

Definition init (thresholds : option Thresholds) : Thresholds :=
  match thresholds with
  | Some th => th
  | None => default_thresholds
  end.

(** The [if / elif / else] that determines the basic signal. *)
Definition base_signal (self : Thresholds) (trend_signal : TrendSignal.t)
  : Signal :=
  if Py.gt (TrendSignal.short_term_trend trend_signal) (buy self)
  then BUY
  else if Py.lt (TrendSignal.short_term_trend trend_signal) (sell self)
  then SELL
  else HOLD.

Definition generate_trading_signal (self : Thresholds) (now : Z)
    (symbol : string) (trend_signal : option TrendSignal.t)
    (current_price : Q) : option TradingSignal.t :=
  match trend_signal with
  | None => None
  | Some trend_signal =>
      let signal := base_signal self trend_signal in
      let confidence :=
        Py.min (Py.abs (TrendSignal.short_term_trend trend_signal))
               (TrendSignal.trend_strength trend_signal) in
      let signal :=
        if Py.lt confidence (confidence_threshold self) then HOLD
        else signal in
      Some (TradingSignal.Build now symbol
              (TrendSignal.short_term_trend trend_signal)
              current_price signal confidence)
  end.

End SignalGenerator.

(** ** The shared world: the score cache and the record of effects *)

(** What the code does to its collaborators, in the order it happens:
    calls of the two scorers and messages handed to the [ErrorHandler]
    ([log_error] with its context, [log_warning] with its message). *)
Inductive Event : Type :=
| VaderCall (text : string)
| BertCall (text : string)
| LogError (context : string)
| LogWarning (message : string).

(** A row of the table [sentiment_cache].  The column [timestamp] holds
    [datetime.isoformat()], read back with [datetime.fromisoformat]: the
    row keeps the [datetime] itself.  [keywords] is the joined text. *)
Record Row : Type := {
  row_symbol : string;
  row_source : string;
  row_text : string;
  row_timestamp : Z;
  row_vader_score : Q;
  row_bert_score : Q;
  row_normalized_score : Q;
  row_keywords : string
}.

(** [cache] is the table in rowid order. *)
Record World : Type := {
  cache : list Row;
  events : list Event
}.

Definition M (A : Type) : Type := World -> A * World.

Definition ret {A} (a : A) : M A := fun w => (a, w).

Definition bind {A B} (c : M A) (k : A -> M B) : M B :=
  fun w => let (a, w') := c w in k a w'.

Notation "x <- c ;; k" := (bind c (fun x => k))
  (at level 61, c at next level, right associativity).
Notation "c ;;; k" := (bind c (fun _ => k))
  (at level 61, right associativity).

Definition emit (e : Event) : M unit :=
  fun w => (tt, {| cache := cache w; events := events w ++ [e] |}).

Definition log_error (context : string) : M unit := emit (LogError context).
Definition log_warning (message : string) : M unit :=
  emit (LogWarning message).

(** ** DatabaseHandler ([core/database_handler.py]) *)

Module DatabaseHandler.

(** [UNIQUE(symbol, source, text)] *)
Definition same_key (a b : Row) : bool :=
  String.eqb (row_symbol a) (row_symbol b)
  && String.eqb (row_source a) (row_source b)
  && String.eqb (row_text a) (row_text b).

(** [INSERT OR REPLACE]: a row with the same unique key is deleted, the
    new row gets a fresh, larger rowid. *)
Definition insert_or_replace (r : Row) (table : list Row) : list Row :=
  filter (fun x => negb (same_key x r)) table ++ [r].

(** [WHERE source = ? AND text = ?] *)
Definition selected (source text : string) (r : Row) : bool :=
  String.eqb (row_source r) source && String.eqb (row_text r) text.

Definition row_of (us : Z) (result : SentimentResult.t) : Row :=
  {| row_symbol := SentimentResult.symbol result;
     row_source := SentimentResult.source result;
     row_text := SentimentResult.text result;
     row_timestamp := us;
     row_vader_score := SentimentResult.vader_score result;
     row_bert_score := SentimentResult.bert_score result;
     row_normalized_score := SentimentResult.normalized_score result;
     row_keywords := Py.join "," (SentimentResult.keywords result) |}.

Definition result_of (row : Row) : SentimentResult.t :=
  SentimentResult.Build
    (row_symbol row) (row_text row) (row_source row)
    (Datetime (row_timestamp row))
    (row_vader_score row) (row_bert_score row) (row_normalized_score row)
    (match row_keywords row with
     | EmptyString => []
     | kw => Py.split_sep "," kw
     end).

(** [result.timestamp.isoformat()] raises on a [str]; the handler logs
    and returns [False]. *)
Definition cache_sentiment_result (result : SentimentResult.t) : M bool :=
  match SentimentResult.timestamp result with
  | Datetime us =>
      fun w =>
        (true, {| cache := insert_or_replace (row_of us result) (cache w);
                  events := events w |})
  | TimeStr _ =>
      log_error "caching sentiment result" ;;; ret false
  end.

(** [cursor.fetchone()]: the first selected row. *)
Definition get_cached_sentiment (source text : string)
  : M (option SentimentResult.t) :=
  fun w => (option_map result_of (find (selected source text) (cache w)), w).

End DatabaseHandler.

(** ** TrendGenerator ([core/sentiment/trend_generator.py]) *)

Module TrendGenerator.

Record WindowSizes : Type := {
  short_term : nat;
  medium_term : nat;
  long_term : nat
}.

Definition default_window_sizes : WindowSizes :=
  {| short_term := 3; medium_term := 7; long_term := 14 |}.

Record t : Type := {
  window_sizes : WindowSizes;
  update_frequency : string
}.

Definition init (sizes : option WindowSizes) (frequency : string) : t :=
  {| window_sizes := match sizes with
                     | Some ws => ws
                     | None => default_window_sizes
                     end;
     update_frequency := frequency |}.

(** [max(self.window_sizes.values())] *)
Definition max_window (self : t) : nat :=
  Nat.max (short_term (window_sizes self))
          (Nat.max (medium_term (window_sizes self))
                   (long_term (window_sizes self))).

(** [freq_map.get(self.update_frequency, "1h")], as the width of a bin in
    microseconds. *)
Definition resample_freq (self : t) : Z :=
  let f := update_frequency self in
  if String.eqb f "5m" then 300000000%Z
  else if String.eqb f "15m" then 900000000%Z
  else if String.eqb f "4h" then 14400000000%Z
  else if String.eqb f "1d" then 86400000000%Z
  else 3600000000%Z.

(** [df.sort_values('timestamp')] *)
Fixpoint insert_by_time (x : Z * Q) (l : list (Z * Q)) : list (Z * Q) :=
  match l with
  | [] => [x]
  | y :: r =>
      if (fst x <=? fst y)%Z then x :: l else y :: insert_by_time x r
  end.

Definition sort_values (rows : list (Z * Q)) : list (Z * Q) :=
  fold_right insert_by_time [] rows.

(** The bin a timestamp falls into: bins are left-closed and aligned on
    multiples of the width. *)
Definition bin_of (width us : Z) : Z := (us / width)%Z.

Definition bin_scores (width k : Z) (rows : list (Z * Q)) : list Q :=
  map snd (filter (fun r => (bin_of width (fst r) =? k)%Z) rows).

Definition total (l : list Q) : Q := fold_left Qplus l 0.

(** The mean of a bin or of a window; NaN when it is empty. *)
Definition mean (l : list Q) : option Q :=
  match l with
  | [] => None
  | _ :: _ => Some (total l / inject_Z (Z.of_nat (List.length l)))
  end.

(** [.resample(freq).mean()] over rows sorted by time: one bin for every
    multiple of the width from the first row's to the last row's. *)
Definition resample_mean (width : Z) (rows : list (Z * Q))
  : list (option Q) :=
  match rows with
  | [] => []
  | first :: _ =>
      let lo := bin_of width (fst first) in
      let hi := bin_of width (fst (last rows first)) in
      map (fun i => mean (bin_scores width (lo + Z.of_nat i) rows))
          (seq 0 (Z.to_nat (hi - lo + 1)))
  end.

(** [.ffill()] *)
Fixpoint ffill (prev : option Q) (l : list (option Q)) : list (option Q) :=
  match l with
  | [] => []
  | x :: r =>
      let v := match x with Some _ => x | None => prev end in
      v :: ffill v r
  end.

Fixpoint all_some (l : list (option Q)) : option (list Q) :=
  match l with
  | [] => Some []
  | None :: _ => None
  | Some v :: r => option_map (cons v) (all_some r)
  end.

(** [.rolling(window=n).mean().iloc[-1]]: the mean of the last [n]
    entries; NaN when there are fewer than [n], when one of them is NaN,
    or when [n] is 0. *)
Definition rolling_mean_last (window : nat) (series : list (option Q))
  : option Q :=
  if (window =? 0)%nat || (List.length series <? window)%nat then None
  else
    match all_some (skipn (List.length series - window) series) with
    | Some vs => mean vs
    | None => None
    end.

Definition _calculate_trend_strength (short medium long : Q) : Q :=
  let divergence := Py.abs (short - medium) + Py.abs (medium - long) in
  Py.min (divergence * 10) 1.0.

Definition _determine_direction (short medium long : Q) : Z :=
  if Py.gt short medium && Py.gt medium long then 1%Z
  else if Py.lt short medium && Py.lt medium long then (-1)%Z
  else 0%Z.

Definition str_of_nat (n : nat) : string :=
  NilEmpty.string_of_uint (Nat.to_uint n).

Section WithParser.

(** [pd.to_datetime] on a [str]; [None] when it raises. *)
Variable to_datetime : string -> option Z.

Definition timestamp_of (ts : PyTime) : option Z :=
  match ts with
  | Datetime us => Some us
  | TimeStr s => to_datetime s
  end.

(** The frame of [(timestamp, score)] rows with its timestamps
    converted. *)
Fixpoint frame_of (data : list SentimentResult.t) : option (list (Z * Q)) :=
  match data with
  | [] => Some []
  | sr :: rest =>
      match timestamp_of (SentimentResult.timestamp sr), frame_of rest with
      | Some us, Some rows =>
          Some ((us, SentimentResult.normalized_score sr) :: rows)
      | _, _ => None
      end
  end.

(** The column [score] after
    [df.set_index('timestamp').resample(freq).mean().ffill()]. *)
Definition resampled (self : t) (data : list SentimentResult.t)
  : option (list (option Q)) :=
  match frame_of data with
  | Some rows =>
      Some (ffill None (resample_mean (resample_freq self) (sort_values rows)))
  | None => None
  end.

Definition generate_trend_signals (self : t) (now : Z)
    (sentiment_data : list SentimentResult.t) : M (option TrendSignal.t) :=
  if (List.length sentiment_data =? 0)%nat
     || (List.length sentiment_data <? max_window self)%nat
  then
    log_warning "Insufficient data for trend analysis" ;;; ret None
  else
    match resampled self sentiment_data with
    | None => log_error "generating trend signals" ;;; ret None
    | Some df =>
        let min_required := max_window self in
        if (List.length df <? min_required)%nat then
          log_warning
            ("Only " ++ str_of_nat (List.length df)
             ++ " data points after resampling, need at least "
             ++ str_of_nat min_required)%string ;;;
          ret None
        else
          match
            rolling_mean_last (short_term (window_sizes self)) df,
            rolling_mean_last (medium_term (window_sizes self)) df,
            rolling_mean_last (long_term (window_sizes self)) df
          with
          | Some short, Some medium, Some long =>
              ret (Some (TrendSignal.Build now short medium long
                           (_calculate_trend_strength short medium long)
                           (_determine_direction short medium long)))
          | _, _, _ =>
              log_warning
                "NaN values in trend calculations, insufficient data" ;;;
              ret None
          end
    end.

End WithParser.

End TrendGenerator.

(** ** Analyzer ([core/sentiment/analyzer.py]) *)

Module Analyzer.

Fixpoint drop (n : nat) (s : string) : string :=
  match n, s with
  | S k, String _ r => drop k r
  | _, _ => s
  end.

Definition next_is (p : ascii -> bool) (s : string) : bool :=
  match s with
  | String c _ => p c
  | EmptyString => false
  end.

Definition nonspace (c : ascii) : bool := negb (Py.isspace c).

(** A match of [http\S+|www\S+|https\S+] starts here. *)
Definition url_start (s : string) : bool :=
  String.prefix "http" s && next_is nonspace (drop 4 s)
  || String.prefix "www" s && next_is nonspace (drop 3 s).

(** [re.sub(r'http\S+|www\S+|https\S+', '', text)]: a match runs to the
    next white space; [inside] says that a match is being skipped. *)
Fixpoint remove_urls (inside : bool) (s : string) : string :=
  match s with
  | EmptyString => EmptyString
  | String c r =>
      if inside then
        if Py.isspace c then String c (remove_urls false r)
        else remove_urls true r
      else if url_start s then remove_urls true r
      else String c (remove_urls false r)
  end.

(** [re.sub(r'\@\w+|\#', '', text)] *)
Fixpoint remove_mentions (inside : bool) (s : string) : string :=
  match s with
  | EmptyString => EmptyString
  | String c r =>
      if inside && Py.isword c then remove_mentions true r
      else if Ascii.eqb c "@" && next_is Py.isword r
      then remove_mentions true r
      else if Ascii.eqb c "#" then remove_mentions false r
      else String c (remove_mentions false r)
  end.

Definition _clean_and_truncate_text (text : string) (max_length : nat)
  : string :=
  let text := remove_urls false text in
  let text := remove_mentions false text in
  Py.prefix_to max_length (Py.strip text).

(** [bert_result] is the pair of [bert_result['label']] and
    [bert_result['score']]. *)
Definition _convert_bert_label_to_score (bert_result : string * Q) : Q :=
  let label := Py.lower (fst bert_result) in
  let score := snd bert_result in
  if String.eqb label "positive" then score
  else if String.eqb label "negative" then - score
  else 0.

Definition _normalize_scores (vader_score bert_score : Q) : Q :=
  vader_score * 0.6 + bert_score * 0.4.

(** [pub_date if pub_date else datetime.now(timezone.utc)] *)
Definition timestamp_for (pub_date : option PyTime) (now : Z) : PyTime :=
  match pub_date with
  | Some (Datetime us) => Datetime us
  | Some (TimeStr s) => if String.eqb s "" then Datetime now else TimeStr s
  | None => Datetime now
  end.

(** [[word.lower() for word in text.split() if len(word) > 3]] *)
Definition keyword_words (text : string) : list string :=
  map Py.lower
      (filter (fun word => (3 <? String.length word)%nat) (Py.split text)).

Section WithCollaborators.

(** [self.vader_analyzer.polarity_scores(text)['compound']]; [None] when
    the call raises. *)
Variable polarity_scores : string -> option Q.

(** [self.bert_pipeline(text)[0]]; [None] when the call raises. *)
Variable bert_pipeline : string -> option (string * Q).

(** The order in which the interpreter iterates over [set(words)]. *)
Variable set_iter : list string -> list string.

Definition _extract_keywords (text : string) (top_n : nat) : list string :=
  let words := keyword_words text in
  let word_counts :=
    map (fun word => (word, Py.count word words)) (set_iter words) in
  let sorted_words := Py.sorted_desc word_counts in
  map fst (firstn top_n sorted_words).

Definition analyze_bert (text source : string) : M Q :=
  let truncated_text := _clean_and_truncate_text text 100 in
  emit (BertCall truncated_text) ;;;
  match bert_pipeline truncated_text with
  | Some bert_result => ret (_convert_bert_label_to_score bert_result)
  | None =>
      log_error ("BERT analysis for text from " ++ source)%string ;;;
      ret 0
  end.

Definition analyze_text (text source symbol : string)
    (pub_date : option PyTime) (now : Z) : M (option SentimentResult.t) :=
  cached <- DatabaseHandler.get_cached_sentiment source text ;;
  match cached with
  | Some hit => ret (Some hit)
  | None =>
      let timestamp := timestamp_for pub_date now in
      emit (VaderCall text) ;;;
      match polarity_scores text with
      | None =>
          log_error ("analyzing text from " ++ source)%string ;;;
          ret None
      | Some vader_score =>
          bert_score <- analyze_bert text source ;;
          let normalized_score := _normalize_scores vader_score bert_score in
          let keywords := _extract_keywords text 5 in
          let result :=
            SentimentResult.Build symbol text source timestamp vader_score
              bert_score normalized_score keywords in
          DatabaseHandler.cache_sentiment_result result ;;;
          ret (Some result)
      end
  end.

End WithCollaborators.

End Analyzer.

(** ** Pipeline ([core/sentiment/pipeline.py]) *)

Module Pipeline.

(** A content item as the fetcher returns it. *)
Record Item : Type := {
  source : string;
  title : string;
  summary : string;
  published : option PyTime
}.

(** The [log_info] messages of a run, each with the value its text is
    formatted from. *)
Inductive Info : Type :=
| Starting
| Fetched (items : nat)
| Analyzed (results : nat)
| GeneratedTrend (trend_signal : TrendSignal.t)
| GeneratedTrading (trading_signal : TradingSignal.t)
| Completed.

Record t : Type := {
  trend_generator : TrendGenerator.t;
  trading_generator : SignalGenerator.Thresholds;
  update_frequency : string
}.


Section WithCollaborators.

Variable polarity_scores : string -> option Q.
Variable bert_pipeline : string -> option (string * Q).
Variable set_iter : list string -> list string.
Variable to_datetime : string -> option Z.

(** [yf.Ticker(symbol).history(period=...)["Close"]]: the closing prices,
    oldest first; [None] when the call raises. *)
Variable history : string -> string -> option (list Q).

(** The loop over the content items; [clock k] is the time at which the
    item of index [k] is analysed. *)
Fixpoint analyze_items (items : list Item) (symbol : string)
    (clock : nat -> Z) (k : nat) : M (list SentimentResult.t) :=
  match items with
  | [] => ret []
  | item :: rest =>
      result <-
        Analyzer.analyze_text polarity_scores bert_pipeline set_iter
          (Py.strip (title item ++ " " ++ summary item)%string)
          (source item) symbol (published item) (clock k) ;;
      results <- analyze_items rest symbol clock (S k) ;;
      ret (match result with
           | Some r => r :: results
           | None => results
           end)
  end.

(** The price for the trading signal: the last close of the 5-day
    history, else of the 30-day history, else 0.0. *)
Definition current_price (symbol : string) : M Q :=
  match history symbol "5d" with
  | None => log_error ("fetching price for " ++ symbol)%string ;;; ret 0
  | Some (c :: closes) => ret (last (c :: closes) 0)
  | Some [] =>
      log_warning
        ("No price data for " ++ symbol ++ ", trying 30d period")%string ;;;
      match history symbol "30d" with
      | None => log_error ("fetching price for " ++ symbol)%string ;;; ret 0
      | Some (c :: closes) => ret (last (c :: closes) 0)
      | Some [] =>
          log_warning ("No price data available for " ++ symbol)%string ;;;
          ret 0
      end
  end.

(** [run_pipeline] on the items that [fetch_all_sources] returned.
    [clock] gives the time of each analysis, then of the trend signal,
    then of the trading signal.  The result is the record of the
    [log_info] messages. *)
Definition run_pipeline (self : t) (content_items : list Item)
    (symbol : string) (clock : nat -> Z) : M (list Info) :=
  let fetched := List.length content_items in
  sentiment_results <- analyze_items content_items symbol clock 0 ;;
  let opening :=
    [Starting; Fetched fetched; Analyzed (List.length sentiment_results)] in
  match sentiment_results with
  | [] =>
      log_warning "No sentiment results to analyze" ;;;
      ret (opening ++ [Completed])
  | _ :: _ =>
      trend_signal <-
        TrendGenerator.generate_trend_signals to_datetime
          (trend_generator self) (clock fetched) sentiment_results ;;
      match trend_signal with
      | None =>
          log_warning
            "Failed to generate trend signal from sentiment results" ;;;
          ret (opening ++ [Completed])
      | Some trend =>
          price <- current_price symbol ;;
          match
            SignalGenerator.generate_trading_signal (trading_generator self)
              (clock (S fetched)) symbol (Some trend) price
          with
          | Some trading =>
              ret (opening
                   ++ [GeneratedTrend trend; GeneratedTrading trading;
                       Completed])
          | None => ret (opening ++ [GeneratedTrend trend; Completed])
          end
      end
  end.

End WithCollaborators.

End Pipeline.

(** ** Dashboard ([dashboard/app.py]) *)

Module Dashboard.

(** [DELETE FROM sentiment_cache WHERE symbol = ?] *)
Definition _clear_sentiment_cache_for_symbol (symbol : string) : M unit :=
  fun w =>
    (tt,
     {| cache :=
          filter (fun row => negb (String.eqb (row_symbol row) symbol))
                 (cache w);
        events := events w |}).

End Dashboard.

(** * Vocabulary of the statements *)

(** ** Iteration orders of a set *)

(** Two iteration orders a set of strings can have: first occurrences in
    order, and the reverse of that. *)
Fixpoint first_seen (l : list string) : list string :=
  match l with
  | [] => []
  | x :: r => x :: filter (fun y => negb (String.eqb x y)) (first_seen r)
  end.

Definition last_seen_first (l : list string) : list string :=
  rev (first_seen l).

(** What the language promises about iterating over [set(words)]: every
    distinct word once, in some order. *)
Definition valid_set_iter (set_iter : list string -> list string) : Prop :=
  forall l, NoDup (set_iter l) /\ (forall x, In x (set_iter l) <-> In x l).

(** The keywords are fixed by the text, whatever order the set is
    iterated in. *)
Definition keywords_fixed_by_text : Prop :=
  forall it1 it2 : list string -> list string,
    valid_set_iter it1 -> valid_set_iter it2 ->
    forall text : string,
      Analyzer._extract_keywords it1 text 5
      = Analyzer._extract_keywords it2 text 5.

(** ** Sorting by a count *)

Definition by_key_desc {A : Type} (a b : A * nat) : Prop :=
  (snd b <= snd a)%nat.

Definition has_key {A : Type} (c : nat) (p : A * nat) : bool :=
  (snd p =? c)%nat.

(** A pair of a word and the frequency the code attaches to it. *)
Definition counted (freq : string -> nat) (p : string * nat) : Prop :=
  snd p = freq (fst p).

Definition with_counts (freq : string -> nat) (l : list string)
  : list (string * nat) :=
  map (fun word => (word, freq word)) l.

(** ** The base decision *)

(** The base rule as the specification words it. *)
Definition base_rule_as_stated (self : SignalGenerator.Thresholds)
    (trend_signal : TrendSignal.t) : Prop :=
  let short := TrendSignal.short_term_trend trend_signal in
  let base := SignalGenerator.base_signal self trend_signal in
  (base = BUY <-> SignalGenerator.buy self < short)
  /\ (base = SELL <-> short < SignalGenerator.sell self)
  /\ (base = HOLD <->
      ~ SignalGenerator.buy self < short
      /\ ~ short < SignalGenerator.sell self)
  /\ (short == SignalGenerator.buy self -> base = HOLD).

(** Thresholds with the sell level above the buy level, and a flat
    trend. *)
Definition crossed_thresholds : SignalGenerator.Thresholds :=
  {| SignalGenerator.buy := -0.5;
     SignalGenerator.sell := 0.5;
     SignalGenerator.confidence_threshold := 0.7 |}.

Definition flat_trend : TrendSignal.t :=
  TrendSignal.Build 0 0 0 0 0 0.

(** ** Worlds *)

Definition empty_world : World := {| cache := []; events := [] |}.

(** The world after one more warning. *)
Definition warned (w : World) (message : string) : World :=
  {| cache := cache w; events := events w ++ [LogWarning message] |}.

(** The combination law, on a result and on a cached row. *)
Definition combination_law (r : SentimentResult.t) : Prop :=
  SentimentResult.normalized_score r
  == 0.6 * SentimentResult.vader_score r + 0.4 * SentimentResult.bert_score r.

Definition row_law (row : Row) : Prop :=
  row_normalized_score row
  == 0.6 * row_vader_score row + 0.4 * row_bert_score row.

(** The result a cache miss builds once both scores are known. *)
Definition fresh_result (set_iter : list string -> list string)
    (text source symbol : string) (pub_date : option PyTime) (now : Z)
    (vader_score bert_score : Q) : SentimentResult.t :=
  SentimentResult.Build symbol text source
    (Analyzer.timestamp_for pub_date now) vader_score bert_score
    (Analyzer._normalize_scores vader_score bert_score)
    (Analyzer._extract_keywords set_iter text 5).

Section Reachability.

Variable polarity_scores : string -> option Q.
Variable bert_pipeline : string -> option (string * Q).
Variable set_iter : list string -> list string.

(** The worlds the program can be in: it starts on an empty table, and
    from then on only [analyze_text] writes to the table; any component
    may log. *)
Inductive reachable : World -> Prop :=
| reachable_start (evs : list Event) :
    reachable {| cache := []; events := evs |}
| reachable_emit (w : World) (e : Event) :
    reachable w -> reachable (snd (emit e w))
| reachable_analyze (w : World) (text source symbol : string)
    (pub_date : option PyTime) (now : Z) :
    reachable w ->
    reachable
      (snd (Analyzer.analyze_text polarity_scores bert_pipeline set_iter
              text source symbol pub_date now w)).

End Reachability.

(** ** Concrete collaborators and inputs *)

Definition steady_vader : string -> option Q := fun _ => Some 0.5.

Definition steady_bert : string -> option (string * Q) :=
  fun _ => Some ("positive"%string, 0.9).

Definition failing_bert : string -> option (string * Q) := fun _ => None.

(** The world after a first analysis of a headline for the symbol GC=F. *)
Definition after_first_call : World :=
  snd (Analyzer.analyze_text steady_vader steady_bert first_seen
         "Gold rallies" "rss" "GC=F" (Some (Datetime 1000)) 0 empty_world).

Definition first_row : Row :=
  {| row_symbol := "GC=F";
     row_source := "rss";
     row_text := "Gold rallies";
     row_timestamp := 1000;
     row_vader_score := 0.5;
     row_bert_score := 0.9;
     row_normalized_score := Analyzer._normalize_scores 0.5 0.9;
     row_keywords := "gold,rallies" |}.

Definition sample_headline : string :=
  "Gold gold silver rally, rally, the Zinc".

(** Fourteen results published one second apart: enough items for the
    default windows, and a single one-hour bin. *)
Definition burst_of_results : list SentimentResult.t :=
  map (fun i =>
         SentimentResult.Build "GC=F" "Market update" "test_source"
           (Datetime (Z.of_nat i * 1000000)) 0.5 0.6 0.54
           ["market"; "update"]%string)
      (seq 0 14).

Definition default_trend_generator : TrendGenerator.t :=
  TrendGenerator.init None "1h".

(** ** TrendGenerator: the trends *)

Definition within (lo hi x : Q) : Prop := lo <= x /\ x <= hi.

Definition within_opt (lo hi : Q) (o : option Q) : Prop :=
  forall v, o = Some v -> within lo hi v.

(** Fourteen results published one hour apart, the most recent first,
    with scores falling by 0.025 per hour of age. *)
Definition hourly_results : list SentimentResult.t :=
  map (fun i =>
         SentimentResult.Build "GC=F" "Market update" "test_source"
           (Datetime (360000000000 - Z.of_nat i * 3600000000)) 0.5 0.6
           (0.55 - inject_Z (Z.of_nat i) * 0.025)
           ["market"; "update"]%string)
      (seq 0 14).

(** Fourteen results published one hour apart, all with one score. *)
Definition flat_results : list SentimentResult.t :=
  map (fun i =>
         SentimentResult.Build "GC=F" "Market update" "test_source"
           (Datetime (Z.of_nat i * 3600000000)) 0.9 0.9 0.9
           ["market"; "update"]%string)
      (seq 0 14).

Definition no_parser : string -> option Z := fun _ => None.

(** ** Cached rows *)

(** The content a row is looked up by. *)
Definition content_key (row : Row) : string * string :=
  (row_source row, row_text row).

(** The three scores of a row lie between -1 and 1. *)
Definition row_scores_in_range (row : Row) : Prop :=
  within (-1) 1 (row_vader_score row)
  /\ within (-1) 1 (row_bert_score row)
  /\ within (-1) 1 (row_normalized_score row).

Definition scores_in_range (r : SentimentResult.t) : Prop :=
  within (-1) 1 (SentimentResult.vader_score r)
  /\ within (-1) 1 (SentimentResult.bert_score r)
  /\ within (-1) 1 (SentimentResult.normalized_score r).

(** A string without a comma. *)
Definition comma_free (s : string) : Prop :=
  ~ In ","%char (list_ascii_of_string s).

Definition failing_vader : string -> option Q := fun _ => None.

(** ** Pipeline runs *)

(** The world after some more log entries. *)
Definition logged (w : World) (entries : list Event) : World :=
  {| cache := cache w; events := events w ++ entries |}.

(** The content an item is analysed and cached under. *)
Definition item_content (item : Pipeline.Item) : string * string :=
  (Pipeline.source item,
   Py.strip (Pipeline.title item ++ " " ++ Pipeline.summary item)%string).

Definition result_content (r : SentimentResult.t) : string * string :=
  (SentimentResult.source r, SentimentResult.text r).

Definition default_pipeline : Pipeline.t :=
  {| Pipeline.trend_generator := default_trend_generator;
     Pipeline.trading_generator := SignalGenerator.default_thresholds;
     Pipeline.update_frequency := "1h" |}.

(** Items with the headline of index [i] published [i] hours after the
    epoch. *)
Definition hourly_items (n : nat) : list Pipeline.Item :=
  map (fun i =>
         {| Pipeline.source := "rss";
            Pipeline.title := "Market update";
            Pipeline.summary := TrendGenerator.str_of_nat i;
            Pipeline.published := Some (Datetime (Z.of_nat i * 3600000000)) |})
      (seq 0 n).

Definition no_history : string -> string -> option (list Q) :=
  fun _ _ => Some [].

Definition epoch_clock : nat -> Z := fun _ => 0%Z.

(** The key of the constraint [UNIQUE(symbol, source, text)]. *)
Definition unique_key (row : Row) : string * string * string :=
  (row_symbol row, row_source row, row_text row).

(** Rows in ascending order of time. *)
Definition by_time (a b : Z * Q) : Prop := (fst a <= fst b)%Z.

(** The log entries that record a call of a scorer. *)
Definition is_scorer_call (e : Event) : bool :=
  match e with
  | VaderCall _ | BertCall _ => true
  | LogError _ | LogWarning _ => false
  end.

(** A result for a scraped page, whose timestamp is a string. *)
Definition scraped_result : SentimentResult.t :=
  SentimentResult.Build "GC=F" "Gold rallies" "https://example.test"
    (TimeStr "yesterday") 0.5 0.9 0.66 ["gold"; "rallies"]%string.

(** * Properties *)

(** ** Comparisons, [min] and [abs] *)

Lemma lt_spec (a b : Q) : Py.lt a b = true <-> a < b.
Proof.
  unfold Py.lt. rewrite negb_true_iff.
  destruct (Qle_bool b a) eqn:E.
  - apply Qle_bool_iff in E. split; [discriminate | intro H].
    exfalso. apply (Qlt_not_le _ _ H); assumption.
  - split; [intros _ | reflexivity].
    apply Qnot_le_lt. intro H. apply Qle_bool_iff in H. congruence.
Qed.

Lemma lt_false (a b : Q) : Py.lt a b = false <-> b <= a.
Proof.
  unfold Py.lt. rewrite negb_false_iff. apply Qle_bool_iff.
Qed.

Lemma min_Qmin (a b : Q) : Py.min a b == Qmin a b.
Proof.
  unfold Py.min. destruct (Py.lt b a) eqn:E.
  - apply lt_spec in E. symmetry. apply Q.min_r. apply Qlt_le_weak, E.
  - apply lt_false in E. symmetry. apply Q.min_l. exact E.
Qed.

Lemma gt_spec (a b : Q) : Py.gt a b = true <-> b < a.
Proof. unfold Py.gt. apply lt_spec. Qed.

Lemma abs_nonneg (a : Q) : 0 <= Py.abs a.
Proof. unfold Py.abs. apply Qabs_nonneg. Qed.

(** ** SignalGenerator *)

(** C3.  A trend signal always yields a trading signal; its confidence is
    the minimum of the magnitude of the short-term trend and the trend
    strength; a confidence strictly below the confidence threshold gives
    HOLD whatever the base decision was; and a base decision of HOLD
    stays HOLD. *)
Theorem generate_trading_signal_confidence_gate
    (self : SignalGenerator.Thresholds) (now : Z) (symbol : string)
    (trend_signal : TrendSignal.t) (current_price : Q) :
  exists out,
    SignalGenerator.generate_trading_signal self now symbol
      (Some trend_signal) current_price = Some out
    /\ TradingSignal.confidence out
       == Qmin (Qabs (TrendSignal.short_term_trend trend_signal))
               (TrendSignal.trend_strength trend_signal)
    /\ (TradingSignal.confidence out
          < SignalGenerator.confidence_threshold self ->
        TradingSignal.signal out = HOLD)
    /\ (SignalGenerator.base_signal self trend_signal = HOLD ->
        TradingSignal.signal out = HOLD).
Proof.
  unfold SignalGenerator.generate_trading_signal.
  eexists. split; [reflexivity |]. cbn [TradingSignal.confidence
    TradingSignal.signal].
  split; [apply min_Qmin |]. split.
  - intro Hlow. apply lt_spec in Hlow. rewrite Hlow. reflexivity.
  - intro Hbase. rewrite Hbase.
    destruct (Py.lt _ _); reflexivity.
Qed.

(** With the sell threshold above the buy threshold, a short-term trend
    between the two is below the sell threshold and still decided BUY:
    the [if] for BUY is tried first. *)
Lemma base_rule_as_stated_fails_when_crossed :
  SignalGenerator.base_signal crossed_thresholds flat_trend = BUY
  /\ TrendSignal.short_term_trend flat_trend
     < SignalGenerator.sell crossed_thresholds
  /\ ~ base_rule_as_stated crossed_thresholds flat_trend.
Proof.
  split; [reflexivity |]. split; [reflexivity |].
  intros (_ & Hsell & _).
  assert (H : SignalGenerator.base_signal crossed_thresholds flat_trend
              = SELL) by (apply Hsell; reflexivity).
  discriminate H.
Qed.

(** C4, amended.  When the sell threshold does not exceed the buy
    threshold, the base decision is BUY exactly when the short-term trend
    is strictly above the buy threshold, SELL exactly when it is strictly
    below the sell threshold, HOLD otherwise, and a trend equal to the
    buy threshold gives HOLD. *)
Theorem base_signal_ordered_thresholds
    (self : SignalGenerator.Thresholds) (trend_signal : TrendSignal.t) :
  SignalGenerator.sell self <= SignalGenerator.buy self ->
  base_rule_as_stated self trend_signal.
Proof.
  intro Hord. unfold base_rule_as_stated, SignalGenerator.base_signal.
  cbv zeta.
  set (short := TrendSignal.short_term_trend trend_signal).
  destruct (Py.gt short (SignalGenerator.buy self)) eqn:Hgt;
    [apply gt_spec in Hgt | apply lt_false in Hgt];
    (destruct (Py.lt short (SignalGenerator.sell self)) eqn:Hlt;
     [apply lt_spec in Hlt | apply lt_false in Hlt]);
    repeat split; intros; try discriminate; try reflexivity;
    try assumption; try lra;
    match goal with
    | H : _ /\ _ |- _ => destruct H; contradiction
    end.
Qed.

Lemma base_signal_ordered_thresholds_witness :
  SignalGenerator.sell SignalGenerator.default_thresholds
    <= SignalGenerator.buy SignalGenerator.default_thresholds
  /\ base_rule_as_stated SignalGenerator.default_thresholds
       (TrendSignal.Build 0 0.5 0.3 0.1 0.4 1).
Proof.
  split.
  - discriminate.
  - apply base_signal_ordered_thresholds. discriminate.
Defined.

(** ** TrendGenerator: direction and strength *)

(** C5.  The direction is +1 exactly for the strict chain
    short > medium > long, -1 exactly for the strict chain
    short < medium < long, and 0 exactly when neither chain holds. *)
Theorem determine_direction_strict_chain (short medium long : Q) :
  let d := TrendGenerator._determine_direction short medium long in
  (d = 1%Z <-> medium < short /\ long < medium)
  /\ (d = (-1)%Z <-> short < medium /\ medium < long)
  /\ (d = 0%Z <->
      ~ (medium < short /\ long < medium)
      /\ ~ (short < medium /\ medium < long)).
Proof.
  cbv zeta. unfold TrendGenerator._determine_direction.
  destruct (Py.gt short medium) eqn:G1;
    destruct (Py.gt medium long) eqn:G2;
    destruct (Py.lt short medium) eqn:L1;
    destruct (Py.lt medium long) eqn:L2; cbn [andb];
    try apply gt_spec in G1; try apply gt_spec in G2;
    try apply lt_spec in L1; try apply lt_spec in L2;
    try (unfold Py.gt in G1; apply lt_false in G1);
    try (unfold Py.gt in G2; apply lt_false in G2);
    try apply lt_false in L1; try apply lt_false in L2;
    repeat split; intros; try discriminate; try reflexivity; try lra;
    try (intros [? ?]; lra); try (destruct H as [? ?]; lra);
    try (exfalso; destruct H as [Ha Hb]; first [apply Ha | apply Hb];
         split; lra).
Qed.

(** C6.  The trend strength is the divergence scaled by ten and capped at
    one, so it lies between zero and one. *)
Theorem calculate_trend_strength_formula (short medium long : Q) :
  TrendGenerator._calculate_trend_strength short medium long
    == Qmin (10 * (Qabs (short - medium) + Qabs (medium - long))) 1
  /\ 0 <= TrendGenerator._calculate_trend_strength short medium long
  /\ TrendGenerator._calculate_trend_strength short medium long <= 1.
Proof.
  unfold TrendGenerator._calculate_trend_strength. cbv zeta.
  assert (Hd : 0 <= (Py.abs (short - medium) + Py.abs (medium - long)) * 10).
  { pose proof (abs_nonneg (short - medium)).
    pose proof (abs_nonneg (medium - long)). nra. }
  assert (H1 : 1.0 == 1) by (unfold Qeq; reflexivity).
  rewrite min_Qmin. split; [| split].
  - unfold Py.abs. apply Q.min_compat; [ring | exact H1].
  - apply Q.min_glb; [exact Hd | discriminate].
  - apply Qle_trans with 1.0; [apply Q.le_min_r | discriminate].
Qed.

(** ** TrendGenerator: insufficient data *)



(** C7.  With fewer items than the largest window, or with fewer bins
    than that after resampling, no trend signal is returned: the call
    returns [None], and the only effect is one warning. *)
Theorem generate_trend_signals_insufficient_data
    (to_datetime : string -> option Z) (self : TrendGenerator.t) (now : Z)
    (sentiment_data : list SentimentResult.t) (w : World) :
  (List.length sentiment_data < TrendGenerator.max_window self)%nat
  \/ (exists df,
        TrendGenerator.resampled to_datetime self sentiment_data = Some df
        /\ (List.length df < TrendGenerator.max_window self)%nat) ->
  exists message,
    TrendGenerator.generate_trend_signals to_datetime self now
      sentiment_data w
    = (None, warned w message).
Proof.
  intro H. unfold TrendGenerator.generate_trend_signals.
  destruct ((List.length sentiment_data =? 0)%nat
            || (List.length sentiment_data
                <? TrendGenerator.max_window self)%nat) eqn:Guard.
  - eexists. reflexivity.
  - apply orb_false_iff in Guard. destruct Guard as [_ Hlen].
    apply Nat.ltb_ge in Hlen.
    destruct H as [Hfew | (df & Hdf & Hbins)]; [lia |].
    rewrite Hdf. apply Nat.ltb_lt in Hbins. rewrite Hbins.
    eexists. reflexivity.
Qed.

Lemma generate_trend_signals_insufficient_data_witness :
  (List.length burst_of_results
   = TrendGenerator.max_window default_trend_generator)
  /\ exists message,
       TrendGenerator.generate_trend_signals (fun _ => None)
         default_trend_generator 0 burst_of_results empty_world
       = (None, warned empty_world message).
Proof.
  split; [reflexivity |].
  apply generate_trend_signals_insufficient_data.
  right. eexists. split.
  - vm_compute. reflexivity.
  - cbn. lia.
Defined.

(** ** Analyzer and the score cache *)

Section AnalyzerRuns.

Variable polarity_scores : string -> option Q.
Variable bert_pipeline : string -> option (string * Q).
Variable set_iter : list string -> list string.

Local Abbreviation analyze_text :=
  (Analyzer.analyze_text polarity_scores bert_pipeline set_iter).
Local Abbreviation reachable :=
  (reachable polarity_scores bert_pipeline set_iter).
Local Abbreviation fresh_result := (fresh_result set_iter).

Lemma analyze_text_hit (text source symbol : string)
    (pub_date : option PyTime) (now : Z) (w : World) (row : Row) :
  find (DatabaseHandler.selected source text) (cache w) = Some row ->
  analyze_text text source symbol pub_date now w
  = (Some (DatabaseHandler.result_of row), w).
Proof.
  intro Hfind. unfold Analyzer.analyze_text, bind,
    DatabaseHandler.get_cached_sentiment.
  rewrite Hfind. reflexivity.
Qed.

Lemma analyze_text_vader_raises (text source symbol : string)
    (pub_date : option PyTime) (now : Z) (w : World) :
  find (DatabaseHandler.selected source text) (cache w) = None ->
  polarity_scores text = None ->
  analyze_text text source symbol pub_date now w
  = (None,
     {| cache := cache w;
        events := (events w ++ [VaderCall text])
                  ++ [LogError ("analyzing text from " ++ source)%string] |}).
Proof.
  intros Hfind Hv. unfold Analyzer.analyze_text, bind,
    DatabaseHandler.get_cached_sentiment.
  rewrite Hfind. cbn. rewrite Hv. reflexivity.
Qed.

Lemma analyze_text_miss (text source symbol : string)
    (pub_date : option PyTime) (now : Z) (w : World) (vader_score : Q) :
  find (DatabaseHandler.selected source text) (cache w) = None ->
  polarity_scores text = Some vader_score ->
  let scored :=
    Analyzer.analyze_bert bert_pipeline text source
      (snd (emit (VaderCall text) w)) in
  let result :=
    fresh_result text source symbol pub_date now vader_score (fst scored) in
  analyze_text text source symbol pub_date now w
  = (Some result,
     snd (DatabaseHandler.cache_sentiment_result result (snd scored))).
Proof.
  intros Hfind Hv. cbv zeta. unfold Analyzer.analyze_text, bind,
    DatabaseHandler.get_cached_sentiment.
  rewrite Hfind. cbn [option_map ret emit fst snd]. rewrite Hv.
  destruct (Analyzer.analyze_bert bert_pipeline text source _) as [b w1].
  cbn [fst snd]. fold (fresh_result text source symbol pub_date now
                         vader_score b).
  destruct (DatabaseHandler.cache_sentiment_result _ w1) as [ok w2].
  reflexivity.
Qed.

Lemma analyze_bert_cache (text source : string) (w : World) :
  cache (snd (Analyzer.analyze_bert bert_pipeline text source w)) = cache w.
Proof.
  unfold Analyzer.analyze_bert, bind.
  destruct (bert_pipeline _); reflexivity.
Qed.

Lemma insert_or_replace_law (row : Row) (table : list Row) :
  row_law row -> Forall row_law table ->
  Forall row_law (DatabaseHandler.insert_or_replace row table).
Proof.
  intros Hrow Htable. unfold DatabaseHandler.insert_or_replace.
  apply Forall_app. split.
  - rewrite Forall_forall in *. intros x Hx.
    apply filter_In in Hx. apply Htable, Hx.
  - constructor; [exact Hrow | constructor].
Qed.

Lemma normalize_scores_law (vader_score bert_score : Q) :
  Analyzer._normalize_scores vader_score bert_score
  == 0.6 * vader_score + 0.4 * bert_score.
Proof. unfold Analyzer._normalize_scores. ring. Qed.

Lemma cache_sentiment_result_law (result : SentimentResult.t) (w : World) :
  combination_law result -> Forall row_law (cache w) ->
  Forall row_law
    (cache (snd (DatabaseHandler.cache_sentiment_result result w))).
Proof.
  intros Hres Hw. unfold DatabaseHandler.cache_sentiment_result.
  destruct (SentimentResult.timestamp result); cbn.
  - apply insert_or_replace_law; [exact Hres | exact Hw].
  - exact Hw.
Qed.

(** Every row of a reachable table obeys the combination law. *)
Lemma reachable_cache_law (w : World) :
  reachable w -> Forall row_law (cache w).
Proof.
  induction 1 as [evs | w e _ IH | w text source symbol pub_date now _ IH].
  - constructor.
  - exact IH.
  - destruct (find (DatabaseHandler.selected source text) (cache w))
      as [row |] eqn:Hfind.
    + rewrite (analyze_text_hit _ _ _ _ _ _ _ Hfind). exact IH.
    + destruct (polarity_scores text) as [v |] eqn:Hv.
      * rewrite (analyze_text_miss _ _ _ _ _ _ _ Hfind Hv). cbn [snd].
        apply cache_sentiment_result_law.
        -- apply normalize_scores_law.
        -- rewrite analyze_bert_cache. exact IH.
      * rewrite (analyze_text_vader_raises _ _ _ _ _ _ Hfind Hv). exact IH.
Qed.

(** C2.  Every result that [analyze_text] returns, computed or read from
    the cache, has a normalized score of 0.6 times the lexicon score plus
    0.4 times the model score; the call takes no weights. *)
Theorem analyze_text_combination_law (w : World)
    (text source symbol : string) (pub_date : option PyTime) (now : Z)
    (result : SentimentResult.t) :
  reachable w ->
  fst (analyze_text text source symbol pub_date now w) = Some result ->
  combination_law result.
Proof.
  intros Hreach Hres. apply reachable_cache_law in Hreach.
  destruct (find (DatabaseHandler.selected source text) (cache w))
    as [row |] eqn:Hfind.
  - rewrite (analyze_text_hit _ _ _ _ _ _ _ Hfind) in Hres.
    injection Hres as <-.
    apply find_some in Hfind. destruct Hfind as [Hin _].
    rewrite Forall_forall in Hreach. exact (Hreach row Hin).
  - destruct (polarity_scores text) as [v |] eqn:Hv.
    + rewrite (analyze_text_miss _ _ _ _ _ _ _ Hfind Hv) in Hres.
      injection Hres as <-. apply normalize_scores_law.
    + rewrite (analyze_text_vader_raises _ _ _ _ _ _ Hfind Hv) in Hres.
      discriminate Hres.
Qed.

(** C8.  When the lexicon scorer has answered and the model scorer
    raises, the call still returns a result: the failure is logged under
    the context of the model analysis, the model score is 0, and the
    normalized score is 0.6 times the lexicon score.  Nothing else is
    logged, except a failed cache write. *)
Theorem analyze_text_bert_failure (w : World) (text source symbol : string)
    (pub_date : option PyTime) (now : Z) (vader_score : Q) :
  find (DatabaseHandler.selected source text) (cache w) = None ->
  polarity_scores text = Some vader_score ->
  bert_pipeline (Analyzer._clean_and_truncate_text text 100) = None ->
  exists result w' later,
    analyze_text text source symbol pub_date now w = (Some result, w')
    /\ SentimentResult.vader_score result = vader_score
    /\ SentimentResult.bert_score result = 0
    /\ SentimentResult.normalized_score result == 0.6 * vader_score
    /\ events w'
       = ((events w ++ [VaderCall text])
          ++ [BertCall (Analyzer._clean_and_truncate_text text 100)])
         ++ [LogError ("BERT analysis for text from " ++ source)%string]
         ++ later
    /\ (later = [] \/ later = [LogError "caching sentiment result"]).
Proof.
  intros Hfind Hv Hbert.
  rewrite (analyze_text_miss _ _ _ _ _ _ _ Hfind Hv).
  unfold Analyzer.analyze_bert, bind. rewrite Hbert. cbn [emit fst snd].
  unfold log_error, emit, ret. cbn [fst snd cache events].
  unfold DatabaseHandler.cache_sentiment_result, fresh_result.
  cbn [SentimentResult.timestamp].
  destruct (Analyzer.timestamp_for pub_date now) as [us | s];
    unfold log_error, emit, ret, bind;
    do 2 eexists;
    [exists [] | exists [LogError "caching sentiment result"]];
    (split; [reflexivity |]); (split; [reflexivity |]);
    (split; [reflexivity |]);
    cbn [fst snd cache events SentimentResult.normalized_score];
    (split; [unfold Analyzer._normalize_scores; ring |]).
  - split; [now rewrite app_nil_r | now left].
  - split; [now rewrite <- !app_assoc | now right].
Qed.

(** C10.  On a cache hit the call returns the stored row as it is, with
    the symbol and the timestamp of the row, whatever symbol and
    publication date the call was given; the world does not change. *)
Theorem analyze_text_cache_hit_ignores_arguments (w : World)
    (text source : string) (row : Row) :
  find (DatabaseHandler.selected source text) (cache w) = Some row ->
  forall (symbol : string) (pub_date : option PyTime) (now : Z),
  exists result,
    analyze_text text source symbol pub_date now w = (Some result, w)
    /\ result = DatabaseHandler.result_of row
    /\ SentimentResult.symbol result = row_symbol row
    /\ SentimentResult.timestamp result = Datetime (row_timestamp row).
Proof.
  intros Hfind symbol pub_date now.
  exists (DatabaseHandler.result_of row).
  rewrite (analyze_text_hit _ _ _ _ _ _ _ Hfind).
  repeat split.
Qed.

Lemma find_app_none {A} (p : A -> bool) (l1 l2 : list A) :
  find p l1 = None -> find p (l1 ++ l2) = find p l2.
Proof.
  induction l1 as [| x r IH]; cbn; [reflexivity |].
  destruct (p x); [discriminate | exact IH].
Qed.

Lemma find_filter_none {A} (p q : A -> bool) (l : list A) :
  find p l = None -> find p (filter q l) = None.
Proof.
  induction l as [| x r IH]; cbn; [reflexivity |].
  destruct (p x) eqn:Hp; [discriminate |].
  intro H. destruct (q x); cbn; [rewrite Hp |]; apply IH, H.
Qed.

Lemma find_insert_or_replace (row : Row) (table : list Row) :
  find (DatabaseHandler.selected (row_source row) (row_text row)) table
  = None ->
  find (DatabaseHandler.selected (row_source row) (row_text row))
       (DatabaseHandler.insert_or_replace row table)
  = Some row.
Proof.
  intro H. unfold DatabaseHandler.insert_or_replace.
  rewrite find_app_none by (apply find_filter_none, H).
  cbn. unfold DatabaseHandler.selected. now rewrite !String.eqb_refl.
Qed.

(** A second call for a text whose first analysis was written to the
    cache: no scorer runs and nothing is logged (the world is
    unchanged); the scores, the symbol and the timestamp are those of
    the first result; the keywords are the first result's after a trip
    through the joined column. *)
Lemma analyze_text_second_call (w w1 : World) (text source symbol : string)
    (pub_date : option PyTime) (now us : Z) (result : SentimentResult.t) :
  find (DatabaseHandler.selected source text) (cache w) = None ->
  analyze_text text source symbol pub_date now w = (Some result, w1) ->
  SentimentResult.timestamp result = Datetime us ->
  forall (symbol' : string) (pub_date' : option PyTime) (now' : Z),
    analyze_text text source symbol' pub_date' now' w1
    = (Some (DatabaseHandler.result_of (DatabaseHandler.row_of us result)),
       w1).
Proof.
  intros Hfind Hcall Hts symbol' pub_date' now'.
  destruct (polarity_scores text) as [v |] eqn:Hv.
  2:{ rewrite (analyze_text_vader_raises _ _ _ _ _ _ Hfind Hv) in Hcall.
      discriminate Hcall. }
  rewrite (analyze_text_miss _ _ _ _ _ _ _ Hfind Hv) in Hcall.
  cbv zeta in Hcall. injection Hcall as Hres Hw1.
  apply analyze_text_hit. rewrite <- Hw1.
  unfold DatabaseHandler.cache_sentiment_result.
  rewrite Hres, Hts. cbn [snd cache].
  rewrite analyze_bert_cache. cbn [emit snd cache].
  assert (Hkey : row_source (DatabaseHandler.row_of us result) = source
                 /\ row_text (DatabaseHandler.row_of us result) = text).
  { rewrite <- Hres. split; reflexivity. }
  destruct Hkey as [Hs Ht].
  rewrite <- Hs at 1. rewrite <- Ht at 1.
  apply find_insert_or_replace. rewrite Hs, Ht. exact Hfind.
Qed.

End AnalyzerRuns.

Lemma after_first_call_cache : cache after_first_call = [first_row].
Proof. reflexivity. Qed.

Lemma analyze_text_combination_law_witness :
  exists result,
    fst (Analyzer.analyze_text steady_vader steady_bert first_seen
           "Gold rallies" "rss" "SI=F" None 7 after_first_call)
    = Some result
    /\ combination_law result.
Proof.
  eexists. split; [reflexivity |].
  eapply (analyze_text_combination_law steady_vader steady_bert first_seen
            after_first_call "Gold rallies" "rss" "SI=F" None 7).
  - apply reachable_analyze, reachable_start.
  - reflexivity.
Defined.

Lemma analyze_text_bert_failure_witness :
  exists result w' later,
    Analyzer.analyze_text steady_vader failing_bert first_seen
      "Gold rallies" "rss" "GC=F" None 7 empty_world
    = (Some result, w')
    /\ SentimentResult.vader_score result = 0.5
    /\ SentimentResult.bert_score result = 0
    /\ SentimentResult.normalized_score result == 0.6 * 0.5
    /\ events w'
       = ((events empty_world ++ [VaderCall "Gold rallies"])
          ++ [BertCall (Analyzer._clean_and_truncate_text "Gold rallies" 100)])
         ++ [LogError ("BERT analysis for text from " ++ "rss")%string]
         ++ later
    /\ (later = [] \/ later = [LogError "caching sentiment result"]).
Proof.
  apply (analyze_text_bert_failure steady_vader failing_bert first_seen
           empty_world "Gold rallies" "rss" "GC=F" None 7 0.5);
    reflexivity.
Defined.

Lemma analyze_text_cache_hit_ignores_arguments_witness :
  exists result,
    Analyzer.analyze_text steady_vader steady_bert first_seen
      "Gold rallies" "rss" "SI=F" (Some (Datetime 2000)) 7 after_first_call
    = (Some result, after_first_call)
    /\ SentimentResult.symbol result = "GC=F"%string
    /\ SentimentResult.symbol result <> "SI=F"%string
    /\ SentimentResult.timestamp result = Datetime 1000.
Proof.
  destruct (analyze_text_cache_hit_ignores_arguments
              steady_vader steady_bert first_seen
              after_first_call "Gold rallies" "rss" first_row
              eq_refl "SI=F" (Some (Datetime 2000)) 7)
    as (result & Hcall & Hres & Hsym & Hts).
  exists result. split; [exact Hcall |].
  split; [exact Hsym |]. split; [| exact Hts].
  rewrite Hsym. discriminate.
Defined.

(** C1.  A headline with a comma, analysed twice.  The first call scores
    it and returns the keyword [surge,]; the second call is served from
    the cache without scoring (the world is unchanged) and returns the
    two keywords [surge] and the empty string: the joined column does
    not give the keyword list back. *)
Theorem analyze_text_twice_keywords_differ :
  let first :=
    Analyzer.analyze_text steady_vader steady_bert first_seen
      "surge, now" "rss" "GC=F" (Some (Datetime 1000)) 0 empty_world in
  let second :=
    Analyzer.analyze_text steady_vader steady_bert first_seen
      "surge, now" "rss" "GC=F" (Some (Datetime 1000)) 0 (snd first) in
  option_map SentimentResult.keywords (fst first) = Some ["surge,"%string]
  /\ option_map SentimentResult.keywords (fst second)
     = Some ["surge"%string; ""%string]
  /\ option_map SentimentResult.normalized_score (fst second)
     = option_map SentimentResult.normalized_score (fst first)
  /\ snd second = snd first.
Proof. cbv zeta. repeat split. Qed.

(** ** Keyword extraction *)

Lemma first_seen_valid : valid_set_iter first_seen.
Proof.
  intro l. induction l as [| x r [IHnd IHin]]; cbn.
  - split; [constructor | tauto].
  - split.
    + constructor.
      * rewrite filter_In. intros [_ H]. now rewrite String.eqb_refl in H.
      * now apply NoDup_filter.
    + intro y. rewrite filter_In, IHin, negb_true_iff.
      destruct (String.eqb_spec x y) as [-> | Hne]; intuition congruence.
Qed.

Lemma last_seen_first_valid : valid_set_iter last_seen_first.
Proof.
  intro l. destruct (first_seen_valid l) as [Hnd Hin].
  unfold last_seen_first. split.
  - now apply NoDup_rev.
  - intro x. now rewrite <- in_rev.
Qed.

(** Two words of equal frequency come out in the order of the set, so two
    iteration orders give two different keyword lists for one text. *)
Lemma extract_keywords_follows_set_order :
  Analyzer._extract_keywords first_seen "gold silver" 5
  = ["gold"%string; "silver"%string]
  /\ Analyzer._extract_keywords last_seen_first "gold silver" 5
     = ["silver"%string; "gold"%string]
  /\ ~ keywords_fixed_by_text.
Proof.
  split; [reflexivity |]. split; [reflexivity |].
  intro H.
  specialize (H first_seen last_seen_first first_seen_valid
                last_seen_first_valid "gold silver"%string).
  discriminate H.
Qed.

Section StableSort.

Context {A : Type}.
Implicit Types (x : A * nat) (l : list (A * nat)).

Lemma insert_desc_perm (x : A * nat) (l : list (A * nat)) :
  Permutation (Py.insert_desc x l) (x :: l).
Proof.
  induction l as [| y r IH]; cbn; [reflexivity |].
  destruct (snd y <=? snd x)%nat; [reflexivity |].
  rewrite IH. apply perm_swap.
Qed.

Lemma sorted_desc_perm (l : list (A * nat)) :
  Permutation (Py.sorted_desc l) l.
Proof.
  induction l as [| x r IH]; cbn; [reflexivity |].
  rewrite insert_desc_perm. now constructor.
Qed.

Lemma insert_desc_sorted (x : A * nat) (l : list (A * nat)) :
  StronglySorted by_key_desc l ->
  StronglySorted by_key_desc (Py.insert_desc x l).
Proof.
  induction 1 as [| y r Hsorted IH Hall]; cbn.
  - repeat constructor.
  - destruct (snd y <=? snd x)%nat eqn:E.
    + apply Nat.leb_le in E. constructor.
      * now constructor.
      * constructor; [exact E |].
        rewrite Forall_forall in *. intros z Hz.
        unfold by_key_desc in *. specialize (Hall z Hz). lia.
    + apply Nat.leb_gt in E. constructor; [exact IH |].
      rewrite Forall_forall in *. intros z Hz.
      apply (Permutation_in _ (insert_desc_perm x r)) in Hz.
      destruct Hz as [<- | Hz].
      * unfold by_key_desc. lia.
      * now apply Hall.
Qed.

Lemma sorted_desc_sorted (l : list (A * nat)) :
  StronglySorted by_key_desc (Py.sorted_desc l).
Proof.
  induction l as [| x r IH]; cbn.
  - constructor.
  - now apply insert_desc_sorted.
Qed.

Lemma insert_desc_stable (c : nat) (x : A * nat) (l : list (A * nat)) :
  filter (has_key c) (Py.insert_desc x l) = filter (has_key c) (x :: l).
Proof.
  induction l as [| y r IH]; cbn; [reflexivity |].
  destruct (snd y <=? snd x)%nat eqn:E; [reflexivity |].
  apply Nat.leb_gt in E. cbn. rewrite IH. cbn. unfold has_key.
  destruct (snd x =? c)%nat eqn:Ex; [| reflexivity].
  apply Nat.eqb_eq in Ex.
  destruct (snd y =? c)%nat eqn:Ey; [| reflexivity].
  apply Nat.eqb_eq in Ey. lia.
Qed.

(** The sort is stable: the elements of one key keep their order. *)
Lemma sorted_desc_stable (c : nat) (l : list (A * nat)) :
  filter (has_key c) (Py.sorted_desc l) = filter (has_key c) l.
Proof.
  induction l as [| x r IH]; [reflexivity |].
  change (Py.sorted_desc (x :: r))
    with (Py.insert_desc x (Py.sorted_desc r)).
  rewrite insert_desc_stable. cbn [filter]. now rewrite IH.
Qed.

End StableSort.

Section Ranking.

(** The frequency that the code attaches to each word of the set. *)
Variable freq : string -> nat.

Local Abbreviation counted := (counted freq).
Local Abbreviation with_counts := (with_counts freq).

Lemma with_counts_fst (l : list string) : map fst (with_counts l) = l.
Proof.
  unfold with_counts. rewrite map_map. cbn. apply map_id.
Qed.

Lemma with_counts_counted (l : list string) : Forall counted (with_counts l).
Proof.
  unfold with_counts. rewrite Forall_map. apply Forall_forall.
  intros x _. reflexivity.
Qed.

Lemma counted_filter (c : nat) (l : list (string * nat)) :
  Forall counted l ->
  filter (fun k => (freq k =? c)%nat) (map fst l)
  = map fst (filter (has_key c) l).
Proof.
  induction 1 as [| p r Hp _ IH]; cbn; [reflexivity |].
  unfold has_key at 1. rewrite Hp, IH.
  now destruct (freq (fst p) =? c)%nat.
Qed.

Lemma counted_sorted (l : list (string * nat)) :
  Forall counted l ->
  StronglySorted by_key_desc l ->
  StronglySorted (fun a b => (freq b <= freq a)%nat) (map fst l).
Proof.
  intros Hc Hs. induction Hs as [| p r _ IH Hall]; cbn.
  - constructor.
  - inversion Hc as [| ? ? Hp Hr]; subst. constructor; [now apply IH |].
    rewrite Forall_map. rewrite Forall_forall in *. intros q Hq.
    specialize (Hall q Hq). specialize (Hr q Hq).
    unfold by_key_desc, counted in *. lia.
Qed.

(** The full ranking behind the keywords: the words of the set, sorted by
    descending frequency, ties in the order of the set. *)
Lemma ranking_of_set (l : list string) :
  let ranking := map fst (Py.sorted_desc (with_counts l)) in
  Permutation ranking l
  /\ StronglySorted (fun a b => (freq b <= freq a)%nat) ranking
  /\ (forall c, filter (fun k => (freq k =? c)%nat) ranking
                = filter (fun k => (freq k =? c)%nat) l).
Proof.
  cbv zeta.
  assert (Hc : Forall counted (Py.sorted_desc (with_counts l))).
  { apply Forall_forall. intros p Hp.
    apply (Permutation_in _ (sorted_desc_perm _)) in Hp.
    pose proof (with_counts_counted l) as H.
    rewrite Forall_forall in H. now apply H. }
  split; [| split].
  - rewrite <- (with_counts_fst l) at 2.
    apply Permutation_map, sorted_desc_perm.
  - apply counted_sorted; [exact Hc | apply sorted_desc_sorted].
  - intro c. rewrite (counted_filter c _ Hc), sorted_desc_stable.
    rewrite <- (counted_filter c _ (with_counts_counted l)).
    now rewrite with_counts_fst.
Qed.

End Ranking.

(** [str.split()] gives tokens that are not empty and hold no white
    space. *)
Lemma flush_tokens (cur : list ascii) (token : string) :
  Forall (fun c => Py.isspace c = false) cur ->
  In token (Py.flush cur) ->
  token <> EmptyString
  /\ Forall (fun c => Py.isspace c = false) (list_ascii_of_string token).
Proof.
  intros Hcur Hin. destruct cur as [| c r]; [contradiction |].
  cbn [Py.flush] in Hin. destruct Hin as [<- | []]. split.
  - intro H. apply (f_equal list_ascii_of_string) in H.
    rewrite list_ascii_of_string_of_list_ascii in H. cbn in H.
    now apply app_eq_nil in H.
  - rewrite list_ascii_of_string_of_list_ascii. now apply Forall_rev.
Qed.

Lemma split_ws_tokens (s : string) (cur : list ascii) (token : string) :
  Forall (fun c => Py.isspace c = false) cur ->
  In token (Py.split_ws cur s) ->
  token <> EmptyString
  /\ Forall (fun c => Py.isspace c = false) (list_ascii_of_string token).
Proof.
  revert cur. induction s as [| c r IH]; intros cur Hcur Hin; cbn in Hin.
  - now apply (flush_tokens cur).
  - destruct (Py.isspace c) eqn:Hc.
    + apply in_app_or in Hin. destruct Hin as [Hin | Hin].
      * now apply (flush_tokens cur).
      * now apply (IH []).
    + apply (IH (c :: cur)); [now constructor | exact Hin].
Qed.

Lemma split_tokens (s token : string) :
  In token (Py.split s) ->
  token <> EmptyString
  /\ Forall (fun c => Py.isspace c = false) (list_ascii_of_string token).
Proof. apply split_ws_tokens. constructor. Qed.

Lemma keyword_words_spec (text k : string) :
  In k (Analyzer.keyword_words text)
  <-> exists token,
        In token (Py.split text)
        /\ (3 < String.length token)%nat
        /\ k = Py.lower token.
Proof.
  unfold Analyzer.keyword_words. rewrite in_map_iff. split.
  - intros (token & <- & Hin). apply filter_In in Hin.
    destruct Hin as [Hin Hlen]. apply Nat.ltb_lt in Hlen.
    now exists token.
  - intros (token & Hin & Hlen & ->). exists token. split; [reflexivity |].
    apply filter_In. split; [exact Hin | now apply Nat.ltb_lt].
Qed.

(** C9, amended.  For a given iteration order of the set of words, the
    keywords are the first [top_n] entries of a ranking that lists, once
    each, the lower-cased white-space tokens longer than 3 characters, by
    descending frequency, words of equal frequency in the order in which
    the set is iterated. *)
Theorem extract_keywords_ranking (set_iter : list string -> list string)
    (text : string) (top_n : nat) :
  valid_set_iter set_iter ->
  let words := Analyzer.keyword_words text in
  let freq := fun k => Py.count k words in
  exists ranking,
    Analyzer._extract_keywords set_iter text top_n = firstn top_n ranking
    /\ NoDup ranking
    /\ (forall k,
         In k ranking
         <-> exists token,
               In token (Py.split text)
               /\ (3 < String.length token)%nat
               /\ k = Py.lower token)
    /\ StronglySorted (fun a b => (freq b <= freq a)%nat) ranking
    /\ (forall c,
         filter (fun k => (freq k =? c)%nat) ranking
         = filter (fun k => (freq k =? c)%nat) (set_iter words)).
Proof.
  intros Hvalid words freq.
  destruct (Hvalid words) as [Hnd Hin].
  destruct (ranking_of_set freq (set_iter words))
    as (Hperm & Hsorted & Hties).
  exists (map fst (Py.sorted_desc (with_counts freq (set_iter words)))).
  split; [| split; [| split; [| split]]].
  - unfold Analyzer._extract_keywords. cbv zeta. now rewrite firstn_map.
  - apply (Permutation_NoDup (Permutation_sym Hperm) Hnd).
  - intro k. rewrite <- keyword_words_spec. fold words.
    rewrite <- Hin. split; apply Permutation_in;
      [exact Hperm | exact (Permutation_sym Hperm)].
  - exact Hsorted.
  - exact Hties.
Qed.

Example extract_keywords_sample :
  Analyzer._extract_keywords first_seen sample_headline 2
  = ["gold"; "rally,"]%string.
Proof. reflexivity. Qed.

Lemma extract_keywords_ranking_witness :
  valid_set_iter first_seen
  /\ exists ranking,
       Analyzer._extract_keywords first_seen sample_headline 2
       = firstn 2 ranking
       /\ NoDup ranking
       /\ (forall k,
            In k ranking
            <-> exists token,
                  In token (Py.split sample_headline)
                  /\ (3 < String.length token)%nat
                  /\ k = Py.lower token)
       /\ StronglySorted
            (fun a b =>
               (Py.count b (Analyzer.keyword_words sample_headline)
                <= Py.count a (Analyzer.keyword_words sample_headline))%nat)
            ranking
       /\ (forall c,
            filter
              (fun k =>
                 (Py.count k (Analyzer.keyword_words sample_headline)
                  =? c)%nat)
              ranking
            = filter
                (fun k =>
                   (Py.count k (Analyzer.keyword_words sample_headline)
                    =? c)%nat)
                (first_seen (Analyzer.keyword_words sample_headline))).
Proof.
  split.
  - exact first_seen_valid.
  - exact (extract_keywords_ranking first_seen sample_headline 2
             first_seen_valid).
Defined.

(** * Further properties of the code *)

(** ** SignalGenerator: the emitted decision *)

Lemma min_le_l (a b : Q) : Py.min a b <= a.
Proof. rewrite min_Qmin. apply Q.le_min_l. Qed.

Lemma min_le_r (a b : Q) : Py.min a b <= b.
Proof. rewrite min_Qmin. apply Q.le_min_r. Qed.

Lemma min_glb (a b c : Q) : c <= a -> c <= b -> c <= Py.min a b.
Proof. intros. rewrite min_Qmin. now apply Q.min_glb. Qed.

(** What a call on a present trend signal returns. *)
Lemma generate_trading_signal_some (self : SignalGenerator.Thresholds)
    (now : Z) (symbol : string) (trend_signal : TrendSignal.t)
    (current_price : Q) (out : TradingSignal.t) :
  SignalGenerator.generate_trading_signal self now symbol
    (Some trend_signal) current_price = Some out ->
  let confidence :=
    Py.min (Py.abs (TrendSignal.short_term_trend trend_signal))
           (TrendSignal.trend_strength trend_signal) in
  out = TradingSignal.Build now symbol
          (TrendSignal.short_term_trend trend_signal) current_price
          (if Py.lt confidence (SignalGenerator.confidence_threshold self)
           then HOLD else SignalGenerator.base_signal self trend_signal)
          confidence.
Proof.
  unfold SignalGenerator.generate_trading_signal. intro H.
  now injection H as <-.
Qed.

(** The emitted signal is BUY exactly when the short-term trend is above
    the buy threshold and the confidence reaches the confidence
    threshold; SELL exactly when the trend is not above the buy threshold,
    is below the sell threshold, and the confidence reaches the
    threshold; HOLD in all other cases. *)
Theorem generate_trading_signal_decision (self : SignalGenerator.Thresholds)
    (now : Z) (symbol : string) (trend_signal : TrendSignal.t)
    (current_price : Q) (out : TradingSignal.t) :
  SignalGenerator.generate_trading_signal self now symbol
    (Some trend_signal) current_price = Some out ->
  let short := TrendSignal.short_term_trend trend_signal in
  let reached :=
    SignalGenerator.confidence_threshold self
    <= TradingSignal.confidence out in
  (TradingSignal.signal out = BUY
   <-> SignalGenerator.buy self < short /\ reached)
  /\ (TradingSignal.signal out = SELL
      <-> ~ SignalGenerator.buy self < short
          /\ short < SignalGenerator.sell self /\ reached)
  /\ (TradingSignal.signal out = HOLD
      <-> ~ reached
          \/ (~ SignalGenerator.buy self < short
              /\ ~ short < SignalGenerator.sell self)).
Proof.
  intro H. apply generate_trading_signal_some in H. cbv zeta in H.
  subst out. cbv zeta. cbn [TradingSignal.signal TradingSignal.confidence].
  unfold SignalGenerator.base_signal.
  set (short := TrendSignal.short_term_trend trend_signal).
  set (conf := Py.min _ _).
  destruct (Py.lt conf (SignalGenerator.confidence_threshold self)) eqn:Hc;
    [apply lt_spec in Hc | apply lt_false in Hc];
    (destruct (Py.gt short (SignalGenerator.buy self)) eqn:Hgt;
     [apply gt_spec in Hgt | apply lt_false in Hgt]);
    (destruct (Py.lt short (SignalGenerator.sell self)) eqn:Hlt;
     [apply lt_spec in Hlt | apply lt_false in Hlt]);
    repeat split; intros; try discriminate; try reflexivity;
    try assumption; try lra;
    try (left; lra); try (right; split; lra);
    repeat match goal with
           | H : _ /\ _ |- _ => destruct H
           | H : _ \/ _ |- _ => destruct H
           end; try lra; try contradiction.
Qed.

Lemma generate_trading_signal_decision_witness :
  exists out,
    SignalGenerator.generate_trading_signal
      SignalGenerator.default_thresholds 0 "GC=F"
      (Some (TrendSignal.Build 0 0.8 0.2 (-0.2) 0.9 1)) 3452.6 = Some out
    /\ TradingSignal.signal out = BUY
    /\ SignalGenerator.buy SignalGenerator.default_thresholds < 0.8
    /\ SignalGenerator.confidence_threshold SignalGenerator.default_thresholds
       <= TradingSignal.confidence out.
Proof.
  eexists. split; [reflexivity |].
  pose proof (generate_trading_signal_decision
                SignalGenerator.default_thresholds 0 "GC=F"
                (TrendSignal.Build 0 0.8 0.2 (-0.2) 0.9 1) 3452.6 _ eq_refl)
    as (Hbuy & _).
  split; [reflexivity |]. apply Hbuy. reflexivity.
Defined.

(** When both directional thresholds lie inside the band that the
    confidence threshold cuts out, they decide nothing: BUY is emitted
    exactly when short-term trend and trend strength both reach the
    confidence threshold, SELL exactly when the trend is at most its
    negative and the strength reaches it. *)
Theorem confidence_threshold_dominates (self : SignalGenerator.Thresholds)
    (now : Z) (symbol : string) (trend_signal : TrendSignal.t)
    (current_price : Q) (out : TradingSignal.t) :
  - SignalGenerator.confidence_threshold self <= SignalGenerator.buy self ->
  SignalGenerator.buy self < SignalGenerator.confidence_threshold self ->
  - SignalGenerator.confidence_threshold self < SignalGenerator.sell self ->
  SignalGenerator.sell self <= SignalGenerator.confidence_threshold self ->
  SignalGenerator.generate_trading_signal self now symbol
    (Some trend_signal) current_price = Some out ->
  let short := TrendSignal.short_term_trend trend_signal in
  let strength := TrendSignal.trend_strength trend_signal in
  let level := SignalGenerator.confidence_threshold self in
  (TradingSignal.signal out = BUY <-> level <= short /\ level <= strength)
  /\ (TradingSignal.signal out = SELL
      <-> short <= - level /\ level <= strength).
Proof.
  intros Hb1 Hb2 Hs1 Hs2 H. apply generate_trading_signal_some in H.
  cbv zeta in H. subst out. cbv zeta.
  cbn [TradingSignal.signal TradingSignal.confidence].
  unfold SignalGenerator.base_signal.
  set (short := TrendSignal.short_term_trend trend_signal) in *.
  set (strength := TrendSignal.trend_strength trend_signal) in *.
  set (level := SignalGenerator.confidence_threshold self) in *.
  assert (Hconf : level <= Py.min (Py.abs short) strength
                  <-> level <= Py.abs short /\ level <= strength).
  { split.
    - intro Hm. split.
      + apply Qle_trans with (Py.min (Py.abs short) strength);
          [exact Hm | apply min_le_l].
      + apply Qle_trans with (Py.min (Py.abs short) strength);
          [exact Hm | apply min_le_r].
    - intros [Ha Hb]. now apply min_glb. }
  assert (Habs : level <= Py.abs short <-> level <= short \/ short <= - level).
  { unfold Py.abs. destruct (Qlt_le_dec short 0) as [Hn | Hp].
    - rewrite (Qabs_neg short) by lra.
      split; [intro; right; lra | intros [Hl | Hr]; lra].
    - rewrite (Qabs_pos short) by lra.
      split; [intro; left; lra | intros [Hl | Hr]; lra]. }
  destruct (Py.lt (Py.min (Py.abs short) strength) level) eqn:Hc;
    [apply lt_spec in Hc | apply lt_false in Hc];
    (destruct (Py.gt short (SignalGenerator.buy self)) eqn:Hgt;
     [apply gt_spec in Hgt | apply lt_false in Hgt]);
    (destruct (Py.lt short (SignalGenerator.sell self)) eqn:Hlt;
     [apply lt_spec in Hlt | apply lt_false in Hlt]);
    repeat split; intros; try discriminate; try reflexivity;
    repeat match goal with
           | H : _ /\ _ |- _ => destruct H
           end;
    try lra;
    try (exfalso; apply (Qlt_not_le _ _ Hc); apply Hconf; split;
         [apply Habs; first [left; lra | right; lra] | lra]);
    try (apply Hconf in Hc; destruct Hc as [Ha Hb]; apply Habs in Ha;
         destruct Ha; lra).
Qed.

Lemma confidence_threshold_dominates_witness :
  exists out,
    SignalGenerator.generate_trading_signal
      SignalGenerator.default_thresholds 0 "GC=F"
      (Some (TrendSignal.Build 0 0.6 0.2 (-0.2) 0.9 1)) 3452.6 = Some out
    /\ (TradingSignal.signal out = BUY <-> 0.7 <= 0.6 /\ 0.7 <= 0.9)
    /\ TradingSignal.signal out = HOLD.
Proof.
  eexists. split; [reflexivity |]. split; [| reflexivity].
  refine (proj1 (confidence_threshold_dominates
                   SignalGenerator.default_thresholds 0 "GC=F"
                   (TrendSignal.Build 0 0.6 0.2 (-0.2) 0.9 1) 3452.6 _
                   _ _ _ _ eq_refl)); discriminate || reflexivity.
Defined.

(** ** TrendGenerator: means, bins and rolling windows *)

Lemma inject_length_succ (n : nat) :
  inject_Z (Z.of_nat (S n)) == inject_Z (Z.of_nat n) + 1.
Proof.
  rewrite Nat2Z.inj_succ. unfold Z.succ. now rewrite inject_Z_plus.
Qed.

Lemma total_from_bounds (lo hi : Q) (l : list Q) (a : Q) :
  Forall (within lo hi) l ->
  a + inject_Z (Z.of_nat (List.length l)) * lo <= fold_left Qplus l a
  /\ fold_left Qplus l a <= a + inject_Z (Z.of_nat (List.length l)) * hi.
Proof.
  intro H. revert a. induction H as [| x r [Hlo Hhi] _ IH]; intro a.
  - cbn [fold_left List.length]. change (inject_Z (Z.of_nat 0)) with 0.
    split; lra.
  - cbn [fold_left List.length]. destruct (IH (a + x)) as [IHlo IHhi].
    rewrite inject_length_succ. split; lra.
Qed.

(** The mean of values between two bounds lies between them. *)
Lemma mean_within (lo hi : Q) (l : list Q) (m : Q) :
  Forall (within lo hi) l -> TrendGenerator.mean l = Some m ->
  within lo hi m.
Proof.
  intros H Hm. destruct l as [| x r]; [discriminate |].
  unfold TrendGenerator.mean in Hm. injection Hm as <-.
  destruct (total_from_bounds lo hi (x :: r) 0 H) as [Hlo Hhi].
  assert (Hn : 0 < inject_Z (Z.of_nat (List.length (x :: r)))).
  { change 0 with (inject_Z 0). rewrite <- Zlt_Qlt. cbn [List.length]. lia. }
  set (n := inject_Z (Z.of_nat (List.length (x :: r)))) in *.
  change (within lo hi (fold_left Qplus (x :: r) 0 / n)). split.
  - apply Qle_shift_div_l; [exact Hn | lra].
  - apply Qle_shift_div_r; [exact Hn | lra].
Qed.


Lemma bin_scores_within (lo hi : Q) (width k : Z) (rows : list (Z * Q)) :
  Forall (fun r => within lo hi (snd r)) rows ->
  Forall (within lo hi) (TrendGenerator.bin_scores width k rows).
Proof.
  intro H. unfold TrendGenerator.bin_scores. rewrite Forall_map.
  rewrite Forall_forall in *. intros r Hr. apply filter_In in Hr.
  apply H, Hr.
Qed.

Lemma resample_mean_within (lo hi : Q) (width : Z) (rows : list (Z * Q)) :
  Forall (fun r => within lo hi (snd r)) rows ->
  Forall (within_opt lo hi) (TrendGenerator.resample_mean width rows).
Proof.
  intro H. unfold TrendGenerator.resample_mean.
  destruct rows as [| first rest]; [constructor |].
  rewrite Forall_map. apply Forall_forall. intros i _ v Hv.
  apply (mean_within lo hi _ v (bin_scores_within lo hi _ _ _ H) Hv).
Qed.

Lemma ffill_within (lo hi : Q) (l : list (option Q)) (prev : option Q) :
  within_opt lo hi prev -> Forall (within_opt lo hi) l ->
  Forall (within_opt lo hi) (TrendGenerator.ffill prev l).
Proof.
  intros Hprev H. revert prev Hprev.
  induction H as [| x r Hx _ IH]; intros prev Hprev; cbn.
  - constructor.
  - destruct x as [v |]; constructor; auto.
Qed.

Lemma all_some_within (lo hi : Q) (l : list (option Q)) (vs : list Q) :
  Forall (within_opt lo hi) l -> TrendGenerator.all_some l = Some vs ->
  Forall (within lo hi) vs.
Proof.
  intro H. revert vs. induction H as [| x r Hx _ IH]; intros vs Hvs; cbn in Hvs.
  - injection Hvs as <-. constructor.
  - destruct x as [v |]; [| discriminate].
    destruct (TrendGenerator.all_some r) as [ws |]; [| discriminate].
    injection Hvs as <-. constructor; [now apply Hx | now apply IH].
Qed.

Lemma Forall_skipn {A} (P : A -> Prop) (n : nat) (l : list A) :
  Forall P l -> Forall P (skipn n l).
Proof.
  intro H. rewrite <- (firstn_skipn n l) in H.
  now apply Forall_app in H.
Qed.

Lemma rolling_mean_last_within (lo hi : Q) (window : nat)
    (series : list (option Q)) (m : Q) :
  Forall (within_opt lo hi) series ->
  TrendGenerator.rolling_mean_last window series = Some m ->
  within lo hi m.
Proof.
  intros H Hm. unfold TrendGenerator.rolling_mean_last in Hm.
  destruct ((window =? 0)%nat || _); [discriminate |].
  destruct (TrendGenerator.all_some _) as [vs |] eqn:Hvs; [| discriminate].
  apply (mean_within lo hi vs m); [| exact Hm].
  apply (all_some_within lo hi _ vs (Forall_skipn _ _ _ H) Hvs).
Qed.

Lemma insert_by_time_perm (x : Z * Q) (l : list (Z * Q)) :
  Permutation (TrendGenerator.insert_by_time x l) (x :: l).
Proof.
  induction l as [| y r IH]; cbn; [reflexivity |].
  destruct (fst x <=? fst y)%Z; [reflexivity |].
  rewrite IH. apply perm_swap.
Qed.

Lemma sort_values_perm (rows : list (Z * Q)) :
  Permutation (TrendGenerator.sort_values rows) rows.
Proof.
  induction rows as [| x r IH]; cbn; [reflexivity |].
  rewrite insert_by_time_perm. now constructor.
Qed.

Lemma sort_values_Forall (P : Z * Q -> Prop) (rows : list (Z * Q)) :
  Forall P rows -> Forall P (TrendGenerator.sort_values rows).
Proof.
  intro H. rewrite Forall_forall in *. intros r Hr.
  apply H. apply (Permutation_in _ (sort_values_perm rows) Hr).
Qed.

Section TrendRuns.

Variable to_datetime : string -> option Z.

Lemma frame_of_scores (P : Q -> Prop) (data : list SentimentResult.t)
    (rows : list (Z * Q)) :
  Forall (fun sr => P (SentimentResult.normalized_score sr)) data ->
  TrendGenerator.frame_of to_datetime data = Some rows ->
  Forall (fun r => P (snd r)) rows.
Proof.
  intro H. revert rows. induction H as [| sr rest Hsr _ IH]; intros rows Hrows;
    cbn in Hrows.
  - injection Hrows as <-. constructor.
  - destruct (TrendGenerator.timestamp_of _ _) as [us |]; [| discriminate].
    destruct (TrendGenerator.frame_of _ rest) as [tail |]; [| discriminate].
    injection Hrows as <-. constructor; [exact Hsr | now apply IH].
Qed.

Lemma frame_of_length (data : list SentimentResult.t) (rows : list (Z * Q)) :
  TrendGenerator.frame_of to_datetime data = Some rows ->
  List.length rows = List.length data.
Proof.
  revert rows. induction data as [| sr rest IH]; intros rows Hrows;
    cbn in Hrows.
  - now injection Hrows as <-.
  - destruct (TrendGenerator.timestamp_of _ _) as [us |]; [| discriminate].
    destruct (TrendGenerator.frame_of _ rest) as [tail |]; [| discriminate].
    injection Hrows as <-. cbn. now rewrite (IH tail).
Qed.

(** The resampled column holds only means of scores. *)
Lemma resampled_within (lo hi : Q) (self : TrendGenerator.t)
    (data : list SentimentResult.t) (df : list (option Q)) :
  Forall (fun sr => within lo hi (SentimentResult.normalized_score sr)) data ->
  TrendGenerator.resampled to_datetime self data = Some df ->
  Forall (within_opt lo hi) df.
Proof.
  intros H Hdf. unfold TrendGenerator.resampled in Hdf.
  destruct (TrendGenerator.frame_of to_datetime data) as [rows |] eqn:Hrows;
    [| discriminate].
  injection Hdf as <-. apply ffill_within.
  - intros v Hv. discriminate Hv.
  - apply resample_mean_within, sort_values_Forall.
    exact (frame_of_scores (within lo hi) data rows H Hrows).
Qed.

(** What a call that returns a trend signal went through. *)
Lemma generate_trend_signals_some (self : TrendGenerator.t) (now : Z)
    (data : list SentimentResult.t) (w : World) (signal : TrendSignal.t) :
  fst (TrendGenerator.generate_trend_signals to_datetime self now data w)
  = Some signal ->
  exists df short medium long,
    TrendGenerator.resampled to_datetime self data = Some df
    /\ (TrendGenerator.max_window self <= List.length data)%nat
    /\ (TrendGenerator.max_window self <= List.length df)%nat
    /\ TrendGenerator.rolling_mean_last
         (TrendGenerator.short_term (TrendGenerator.window_sizes self)) df
       = Some short
    /\ TrendGenerator.rolling_mean_last
         (TrendGenerator.medium_term (TrendGenerator.window_sizes self)) df
       = Some medium
    /\ TrendGenerator.rolling_mean_last
         (TrendGenerator.long_term (TrendGenerator.window_sizes self)) df
       = Some long
    /\ signal
       = TrendSignal.Build now short medium long
           (TrendGenerator._calculate_trend_strength short medium long)
           (TrendGenerator._determine_direction short medium long)
    /\ TrendGenerator.generate_trend_signals to_datetime self now data w
       = (Some signal, w).
Proof.
  unfold TrendGenerator.generate_trend_signals.
  destruct ((List.length data =? 0)%nat
            || (List.length data <? TrendGenerator.max_window self)%nat)
    eqn:Guard; [discriminate |].
  apply orb_false_iff in Guard. destruct Guard as [_ Hlen].
  apply Nat.ltb_ge in Hlen.
  destruct (TrendGenerator.resampled to_datetime self data) as [df |] eqn:Hdf;
    [| discriminate].
  destruct (List.length df <? TrendGenerator.max_window self)%nat eqn:Hbins;
    [discriminate |].
  apply Nat.ltb_ge in Hbins.
  destruct (TrendGenerator.rolling_mean_last
              (TrendGenerator.short_term _) df) as [short |] eqn:Hs;
    [| discriminate].
  destruct (TrendGenerator.rolling_mean_last
              (TrendGenerator.medium_term _) df) as [medium |] eqn:Hm;
    [| discriminate].
  destruct (TrendGenerator.rolling_mean_last
              (TrendGenerator.long_term _) df) as [long |] eqn:Hl;
    [| discriminate].
  cbn. intro H. injection H as <-.
  exists df, short, medium, long. repeat split; assumption.
Qed.

(** When every score of the batch lies between two bounds, so do the three
    trends of the signal. *)
Theorem generate_trend_signals_trends_within (lo hi : Q)
    (self : TrendGenerator.t) (now : Z) (data : list SentimentResult.t)
    (w : World) (signal : TrendSignal.t) :
  Forall (fun sr => within lo hi (SentimentResult.normalized_score sr)) data ->
  fst (TrendGenerator.generate_trend_signals to_datetime self now data w)
  = Some signal ->
  within lo hi (TrendSignal.short_term_trend signal)
  /\ within lo hi (TrendSignal.medium_term_trend signal)
  /\ within lo hi (TrendSignal.long_term_trend signal).
Proof.
  intros Hdata Hsig.
  destruct (generate_trend_signals_some _ _ _ _ _ Hsig)
    as (df & short & medium & long & Hdf & _ & _ & Hs & Hm & Hl & -> & _).
  pose proof (resampled_within lo hi self data df Hdata Hdf) as Hin.
  cbn. repeat split;
    first [ apply (rolling_mean_last_within lo hi _ df _ Hin Hs)
          | apply (rolling_mean_last_within lo hi _ df _ Hin Hm)
          | apply (rolling_mean_last_within lo hi _ df _ Hin Hl) ].
Qed.

End TrendRuns.

Lemma hourly_results_within :
  Forall (fun sr => within (-1) 1 (SentimentResult.normalized_score sr))
         hourly_results.
Proof. repeat (constructor; [split; discriminate |]). constructor. Qed.

Lemma generate_trend_signals_trends_within_witness :
  exists signal,
    fst (TrendGenerator.generate_trend_signals no_parser
           default_trend_generator 0 hourly_results empty_world)
    = Some signal
    /\ within (-1) 1 (TrendSignal.short_term_trend signal)
    /\ within (-1) 1 (TrendSignal.medium_term_trend signal)
    /\ within (-1) 1 (TrendSignal.long_term_trend signal).
Proof.
  eexists. split; [vm_compute; reflexivity |].
  apply (generate_trend_signals_trends_within no_parser (-1) 1
           default_trend_generator 0 hourly_results empty_world).
  - exact hourly_results_within.
  - vm_compute. reflexivity.
Defined.

(** ** TrendGenerator: when a signal is produced *)







Lemma calculate_trend_strength_range (short medium long : Q) :
  within 0 1 (TrendGenerator._calculate_trend_strength short medium long).
Proof.
  unfold TrendGenerator._calculate_trend_strength. cbv zeta. split.
  - apply min_glb; [| discriminate].
    pose proof (abs_nonneg (short - medium)).
    pose proof (abs_nonneg (medium - long)). nra.
  - apply Qle_trans with 1.0; [apply min_le_r | discriminate].
Qed.

Section TrendSignals.

Variable to_datetime : string -> option Z.


End TrendSignals.


(** ** TrendGenerator: bins and time span *)

Lemma last_In {A} (l : list A) (d : A) : l <> [] -> In (last l d) l.
Proof.
  induction l as [| x r IH]; [congruence |]. intros _.
  destruct r as [| y r']; [now left |].
  right. apply IH. discriminate.
Qed.


Section TrendSpan.

Variable to_datetime : string -> option Z.


(** The confidence of a trading signal made from a generated trend
    signal lies between 0 and 1 and does not exceed the magnitude of the
    sentiment score it reports. *)
Theorem generated_confidence_unit_interval (self : TrendGenerator.t)
    (thresholds : SignalGenerator.Thresholds) (now now' : Z)
    (data : list SentimentResult.t) (w : World) (symbol : string)
    (current_price : Q) (trend : TrendSignal.t) (out : TradingSignal.t) :
  fst (TrendGenerator.generate_trend_signals to_datetime self now data w)
  = Some trend ->
  SignalGenerator.generate_trading_signal thresholds now' symbol
    (Some trend) current_price = Some out ->
  within 0 1 (TradingSignal.confidence out)
  /\ TradingSignal.confidence out <= Qabs (TradingSignal.sentiment_score out).
Proof.
  intros Htrend Hout.
  destruct (generate_trend_signals_some _ _ _ _ _ _ Htrend)
    as (df & short & medium & long & _ & _ & _ & _ & _ & _ & -> & _).
  apply generate_trading_signal_some in Hout. cbv zeta in Hout. subst out.
  cbn [TradingSignal.confidence TradingSignal.sentiment_score
       TrendSignal.short_term_trend TrendSignal.trend_strength].
  destruct (calculate_trend_strength_range short medium long) as [Hlo Hhi].
  repeat split.
  - apply min_glb; [apply abs_nonneg | exact Hlo].
  - eapply Qle_trans; [apply min_le_r | exact Hhi].
  - apply min_le_l.
Qed.

(** A batch in which every item has the same score gives a trend signal
    of strength 0 and direction 0, and the trading signal made from it is
    HOLD under any positive confidence threshold. *)
Theorem flat_scores_hold (self : TrendGenerator.t)
    (thresholds : SignalGenerator.Thresholds) (now now' : Z)
    (data : list SentimentResult.t) (w : World) (symbol : string)
    (current_price score : Q) (trend : TrendSignal.t)
    (out : TradingSignal.t) :
  Forall (fun sr => SentimentResult.normalized_score sr == score) data ->
  0 < SignalGenerator.confidence_threshold thresholds ->
  fst (TrendGenerator.generate_trend_signals to_datetime self now data w)
  = Some trend ->
  SignalGenerator.generate_trading_signal thresholds now' symbol
    (Some trend) current_price = Some out ->
  TrendSignal.trend_strength trend == 0
  /\ TrendSignal.change_direction trend = 0%Z
  /\ TradingSignal.signal out = HOLD.
Proof.
  intros Hflat Hthr Htrend Hout.
  assert (Hin : Forall (fun sr => within score score
                                    (SentimentResult.normalized_score sr))
                       data).
  { rewrite Forall_forall in *. intros sr Hsr. specialize (Hflat sr Hsr).
    split; lra. }
  destruct (generate_trend_signals_some _ _ _ _ _ _ Htrend)
    as (df & short & medium & long & Hdf & _ & _ & Hs & Hm & Hl & -> & _).
  pose proof (resampled_within to_datetime score score self data df Hin Hdf)
    as Hdfin.
  destruct (rolling_mean_last_within score score _ df _ Hdfin Hs) as [Hs1 Hs2].
  destruct (rolling_mean_last_within score score _ df _ Hdfin Hm) as [Hm1 Hm2].
  destruct (rolling_mean_last_within score score _ df _ Hdfin Hl) as [Hl1 Hl2].
  assert (Hstrength :
            TrendGenerator._calculate_trend_strength short medium long == 0).
  { unfold TrendGenerator._calculate_trend_strength. cbv zeta.
    rewrite min_Qmin. unfold Py.abs.
    rewrite (Qabs_pos (short - medium)) by lra.
    rewrite (Qabs_pos (medium - long)) by lra.
    rewrite Q.min_l; [lra |].
    apply Qle_trans with 0; [lra | discriminate]. }
  cbn [TrendSignal.trend_strength TrendSignal.change_direction].
  split; [exact Hstrength |]. split.
  - unfold TrendGenerator._determine_direction.
    replace (Py.gt short medium) with false
      by (symmetry; apply lt_false; lra).
    replace (Py.lt short medium) with false
      by (symmetry; apply lt_false; lra).
    reflexivity.
  - apply generate_trading_signal_some in Hout. cbv zeta in Hout. subst out.
    cbn [TradingSignal.signal TrendSignal.short_term_trend
         TrendSignal.trend_strength].
    replace (Py.lt _ (SignalGenerator.confidence_threshold thresholds))
      with true; [reflexivity |].
    symmetry. apply lt_spec.
    eapply Qle_lt_trans; [apply min_le_r |]. lra.
Qed.

End TrendSpan.

(** The strength is 0 exactly when the three trends coincide, it is 1
    exactly when the divergence reaches one tenth, and a direction other
    than 0 comes with a positive strength. *)
Theorem trend_strength_and_direction (short medium long : Q) :
  let strength :=
    TrendGenerator._calculate_trend_strength short medium long in
  let divergence := Qabs (short - medium) + Qabs (medium - long) in
  (strength == 0 <-> short == medium /\ medium == long)
  /\ (strength == 1 <-> 1 # 10 <= divergence)
  /\ (TrendGenerator._determine_direction short medium long <> 0%Z ->
      0 < strength).
Proof.
  cbv zeta. unfold TrendGenerator._calculate_trend_strength. cbv zeta.
  unfold Py.min, Py.abs.
  pose proof (Qabs_nonneg (short - medium)) as H1.
  pose proof (Qabs_nonneg (medium - long)) as H2.
  assert (Hz1 : Qabs (short - medium) == 0 <-> short == medium).
  { split; intro H.
    - destruct (Qabs_Qle_condition (short - medium) 0) as [Hc _].
      assert (Qabs (short - medium) <= 0) as Hle by lra.
      apply Hc in Hle. lra.
    - rewrite (Qabs_pos (short - medium)) by lra. lra. }
  assert (Hz2 : Qabs (medium - long) == 0 <-> medium == long).
  { split; intro H.
    - destruct (Qabs_Qle_condition (medium - long) 0) as [Hc _].
      assert (Qabs (medium - long) <= 0) as Hle by lra.
      apply Hc in Hle. lra.
    - rewrite (Qabs_pos (medium - long)) by lra. lra. }
  assert (Hdir : TrendGenerator._determine_direction short medium long
                 <> 0%Z -> ~ short == medium).
  { unfold TrendGenerator._determine_direction.
    destruct (Py.gt short medium) eqn:G; [apply gt_spec in G; intros _; lra |].
    destruct (Py.lt short medium) eqn:L; [apply lt_spec in L; intros _; lra |].
    cbn. congruence. }
  destruct (Py.lt 1.0 ((Qabs (short - medium) + Qabs (medium - long)) * 10))
    eqn:E; [apply lt_spec in E | apply lt_false in E].
  - repeat split; intros; lra.
  - repeat split; intros; try lra.
    destruct (Qlt_le_dec 0 (Qabs (short - medium))) as [Hpos | Hle];
      [lra |].
    exfalso. apply Hdir; [assumption |]. apply Hz1. lra.
Qed.


Lemma generated_confidence_unit_interval_witness :
  exists trend out,
    fst (TrendGenerator.generate_trend_signals no_parser
           default_trend_generator 0 hourly_results empty_world)
    = Some trend
    /\ SignalGenerator.generate_trading_signal
         SignalGenerator.default_thresholds 1 "GC=F" (Some trend) 3452.6
       = Some out
    /\ within 0 1 (TradingSignal.confidence out)
    /\ TradingSignal.confidence out
       <= Qabs (TradingSignal.sentiment_score out).
Proof.
  do 2 eexists. split; [vm_compute; reflexivity |].
  split; [vm_compute; reflexivity |].
  eapply (generated_confidence_unit_interval no_parser
            default_trend_generator SignalGenerator.default_thresholds 0 1
            hourly_results empty_world "GC=F" 3452.6).
  - vm_compute. reflexivity.
  - vm_compute. reflexivity.
Defined.

Lemma flat_results_flat :
  Forall (fun sr => SentimentResult.normalized_score sr == 0.9) flat_results.
Proof. repeat (constructor; [vm_compute; reflexivity |]). constructor. Qed.

Lemma flat_scores_hold_witness :
  exists trend out,
    fst (TrendGenerator.generate_trend_signals no_parser
           default_trend_generator 0 flat_results empty_world)
    = Some trend
    /\ SignalGenerator.buy SignalGenerator.default_thresholds
       < TrendSignal.short_term_trend trend
    /\ SignalGenerator.generate_trading_signal
         SignalGenerator.default_thresholds 1 "GC=F" (Some trend) 3452.6
       = Some out
    /\ TrendSignal.trend_strength trend == 0
    /\ TrendSignal.change_direction trend = 0%Z
    /\ TradingSignal.signal out = HOLD.
Proof.
  do 2 eexists. split; [vm_compute; reflexivity |].
  split; [vm_compute; reflexivity |]. split; [vm_compute; reflexivity |].
  eapply (flat_scores_hold no_parser default_trend_generator
            SignalGenerator.default_thresholds 0 1 flat_results empty_world
            "GC=F" 3452.6 0.9).
  - exact flat_results_flat.
  - vm_compute. reflexivity.
  - vm_compute. reflexivity.
  - vm_compute. reflexivity.
Defined.

(** ** Analyzer: what a call does to the cache *)

Lemma filter_all {A} (f : A -> bool) (l : list A) :
  (forall x, In x l -> f x = true) -> filter f l = l.
Proof.
  induction l as [| x r IH]; intro H; cbn; [reflexivity |].
  rewrite (H x (or_introl eq_refl)). f_equal. apply IH.
  intros y Hy. apply H. now right.
Qed.

(** A row whose content is not in the table replaces nothing. *)
Lemma insert_or_replace_new (row : Row) (table : list Row) :
  find (DatabaseHandler.selected (row_source row) (row_text row)) table
  = None ->
  DatabaseHandler.insert_or_replace row table = table ++ [row].
Proof.
  intro Hfind. unfold DatabaseHandler.insert_or_replace. f_equal.
  apply filter_all. intros x Hx.
  pose proof (find_none _ _ Hfind x Hx) as Hsel.
  unfold DatabaseHandler.selected in Hsel.
  unfold DatabaseHandler.same_key. apply negb_true_iff.
  destruct (String.eqb (row_symbol x) (row_symbol row)); [cbn | reflexivity].
  exact Hsel.
Qed.

Section AnalyzerCache.

Variable polarity_scores : string -> option Q.
Variable bert_pipeline : string -> option (string * Q).
Variable set_iter : list string -> list string.

Local Abbreviation analyze_text :=
  (Analyzer.analyze_text polarity_scores bert_pipeline set_iter).
Local Abbreviation reachable :=
  (reachable polarity_scores bert_pipeline set_iter).

(** The table after a call: unchanged, or one row longer, the new row
    being the one of the returned result. *)
Lemma analyze_text_cache_cases (text source symbol : string)
    (pub_date : option PyTime) (now : Z) (w : World) :
  let out := analyze_text text source symbol pub_date now w in
  cache (snd out) = cache w
  \/ (find (DatabaseHandler.selected source text) (cache w) = None
      /\ exists us vader_score bert_score,
           fst out = Some (fresh_result set_iter text source symbol pub_date now
                             vader_score bert_score)
           /\ polarity_scores text = Some vader_score
           /\ bert_score
              = fst (Analyzer.analyze_bert bert_pipeline text source
                       (snd (emit (VaderCall text) w)))
           /\ Analyzer.timestamp_for pub_date now = Datetime us
           /\ cache (snd out)
              = cache w
                ++ [DatabaseHandler.row_of us
                      (fresh_result set_iter text source symbol pub_date now
                         vader_score bert_score)]).
Proof.
  cbv zeta.
  destruct (find (DatabaseHandler.selected source text) (cache w))
    as [row |] eqn:Hfind.
  - left. now rewrite (analyze_text_hit _ _ _ _ _ _ _ _ _ _ Hfind).
  - destruct (polarity_scores text) as [v |] eqn:Hv.
    + rewrite (analyze_text_miss _ _ _ _ _ _ _ _ _ _ Hfind Hv).
      cbn [fst snd].
      set (b := fst (Analyzer.analyze_bert bert_pipeline text source _)).
      set (r := fresh_result set_iter text source symbol pub_date now v b).
      assert (Hr : SentimentResult.timestamp r
                   = Analyzer.timestamp_for pub_date now) by reflexivity.
      unfold DatabaseHandler.cache_sentiment_result. rewrite Hr.
      destruct (Analyzer.timestamp_for pub_date now) as [us | s].
      * right. split; [reflexivity |]. exists us, v, b.
        repeat split; try reflexivity; try assumption.
        cbn [snd cache]. rewrite analyze_bert_cache. cbn [emit snd cache].
        apply insert_or_replace_new. exact Hfind.
      * left. unfold bind, log_error, emit, ret. cbn [fst snd cache].
        rewrite analyze_bert_cache. reflexivity.
    + left. now rewrite (analyze_text_vader_raises _ _ _ _ _ _ _ _ _ Hfind Hv).
Qed.

End AnalyzerCache.

Lemma NoDup_snoc {A} (l : list A) (a : A) :
  NoDup l -> ~ In a l -> NoDup (l ++ [a]).
Proof.
  intros Hl Ha. apply (Permutation_NoDup (Permutation_cons_append l a)).
  now constructor.
Qed.

Lemma find_none_key (source text : string) (table : list Row) :
  find (DatabaseHandler.selected source text) table = None ->
  ~ In (source, text) (map content_key table).
Proof.
  intros Hfind Hin. apply in_map_iff in Hin.
  destruct Hin as (row & Hkey & Hrow).
  pose proof (find_none _ _ Hfind row Hrow) as Hsel.
  unfold content_key in Hkey. injection Hkey as Hs Ht.
  unfold DatabaseHandler.selected in Hsel.
  now rewrite Hs, Ht, !String.eqb_refl in Hsel.
Qed.

Lemma convert_bert_label_range (bert_result : string * Q) :
  within 0 1 (snd bert_result) ->
  within (-1) 1 (Analyzer._convert_bert_label_to_score bert_result).
Proof.
  intros [Hlo Hhi]. unfold Analyzer._convert_bert_label_to_score. cbv zeta.
  destruct (String.eqb _ "positive"); [split; lra |].
  destruct (String.eqb _ "negative"); split; lra.
Qed.

Section AnalyzerInvariants.

Variable polarity_scores : string -> option Q.
Variable bert_pipeline : string -> option (string * Q).
Variable set_iter : list string -> list string.

Local Abbreviation analyze_text :=
  (Analyzer.analyze_text polarity_scores bert_pipeline set_iter).
Local Abbreviation reachable :=
  (reachable polarity_scores bert_pipeline set_iter).

(** A call never deletes or replaces a cached row: the table afterwards
    is the table before, or the table before with one row appended for
    the analysed content and symbol. *)
Theorem analyze_text_appends_only (text source symbol : string)
    (pub_date : option PyTime) (now : Z) (w : World) :
  let w' := snd (analyze_text text source symbol pub_date now w) in
  cache w' = cache w
  \/ exists row,
       cache w' = cache w ++ [row]
       /\ row_symbol row = symbol
       /\ row_source row = source
       /\ row_text row = text.
Proof.
  cbv zeta.
  destruct (analyze_text_cache_cases polarity_scores bert_pipeline set_iter
              text source symbol pub_date now w)
    as [Hsame | (_ & us & v & b & _ & _ & _ & _ & Happ)].
  - now left.
  - right. eexists. split; [exact Happ |]. repeat split.
Qed.

(** In every reachable table no two rows have the same source and text,
    so a lookup by content selects at most one row. *)
Theorem reachable_distinct_content (w : World) :
  reachable w -> NoDup (map content_key (cache w)).
Proof.
  induction 1 as [evs | w e _ IH | w text source symbol pub_date now _ IH].
  - constructor.
  - exact IH.
  - destruct (analyze_text_cache_cases polarity_scores bert_pipeline set_iter
                text source symbol pub_date now w)
      as [Hsame | (Hfind & us & v & b & _ & _ & _ & _ & Happ)].
    + now rewrite Hsame.
    + rewrite Happ, map_app. cbn [map]. apply NoDup_snoc; [exact IH |].
      apply find_none_key, Hfind.
Qed.

(** A result whose timestamp is a string is returned but never written
    to the cache: the write fails, the failure is logged, and the content
    stays uncached, so the next call for it scores again. *)
Theorem analyze_text_string_timestamp_not_cached (text source symbol s : string)
    (now : Z) (w : World) (vader_score : Q) :
  find (DatabaseHandler.selected source text) (cache w) = None ->
  polarity_scores text = Some vader_score ->
  s <> EmptyString ->
  exists result w',
    analyze_text text source symbol (Some (TimeStr s)) now w
    = (Some result, w')
    /\ SentimentResult.timestamp result = TimeStr s
    /\ cache w' = cache w
    /\ find (DatabaseHandler.selected source text) (cache w') = None
    /\ last (events w') (VaderCall text)
       = LogError "caching sentiment result".
Proof.
  intros Hfind Hv Hs.
  rewrite (analyze_text_miss _ _ _ _ _ _ _ _ _ _ Hfind Hv). cbv zeta.
  do 2 eexists. split; [reflexivity |].
  assert (Hts : Analyzer.timestamp_for (Some (TimeStr s)) now = TimeStr s).
  { unfold Analyzer.timestamp_for.
    destruct (String.eqb_spec s ""); [contradiction | reflexivity]. }
  unfold DatabaseHandler.cache_sentiment_result, fresh_result.
  cbn [SentimentResult.timestamp]. rewrite Hts.
  unfold bind, log_error, emit, ret. cbn [fst snd cache events].
  rewrite analyze_bert_cache. cbn [emit snd cache].
  repeat split; try assumption. apply last_last.
Qed.

(** When the lexicon scorer raises, the call returns [None]: the model
    scorer is not invoked, nothing is cached, and the one thing logged is
    the error of the analysis. *)
Theorem analyze_text_lexicon_failure (text source symbol : string)
    (pub_date : option PyTime) (now : Z) (w : World) :
  find (DatabaseHandler.selected source text) (cache w) = None ->
  polarity_scores text = None ->
  exists w',
    analyze_text text source symbol pub_date now w = (None, w')
    /\ cache w' = cache w
    /\ events w'
       = events w
         ++ [VaderCall text;
             LogError ("analyzing text from " ++ source)%string].
Proof.
  intros Hfind Hv.
  rewrite (analyze_text_vader_raises _ _ _ _ _ _ _ _ _ Hfind Hv).
  eexists. split; [reflexivity |]. cbn [cache events].
  split; [reflexivity |]. now rewrite <- app_assoc.
Qed.

Hypothesis lexicon_range :
  forall text v, polarity_scores text = Some v -> within (-1) 1 v.
Hypothesis model_range :
  forall text label score,
    bert_pipeline text = Some (label, score) -> within 0 1 score.

Lemma analyze_bert_range (text source : string) (w : World) :
  within (-1) 1 (fst (Analyzer.analyze_bert bert_pipeline text source w)).
Proof.
  unfold Analyzer.analyze_bert, bind.
  destruct (bert_pipeline _) as [[label score] |] eqn:Hb; cbn.
  - apply convert_bert_label_range. cbn. exact (model_range _ _ _ Hb).
  - split; discriminate.
Qed.

Lemma normalize_scores_range (v b : Q) :
  within (-1) 1 v -> within (-1) 1 b ->
  within (-1) 1 (Analyzer._normalize_scores v b).
Proof.
  intros [Hv1 Hv2] [Hb1 Hb2]. unfold Analyzer._normalize_scores.
  split; lra.
Qed.

Lemma reachable_scores_in_range (w : World) :
  reachable w -> Forall row_scores_in_range (cache w).
Proof.
  induction 1 as [evs | w e _ IH | w text source symbol pub_date now _ IH].
  - constructor.
  - exact IH.
  - destruct (analyze_text_cache_cases polarity_scores bert_pipeline set_iter
                text source symbol pub_date now w)
      as [Hsame | (_ & us & v & b & _ & Hv & Hb & _ & Happ)].
    + now rewrite Hsame.
    + rewrite Happ. apply Forall_app. split; [exact IH |].
      constructor; [| constructor].
      pose proof (lexicon_range _ _ Hv) as Hvr.
      assert (Hbr : within (-1) 1 b) by (rewrite Hb; apply analyze_bert_range).
      repeat split; cbn; try apply Hvr; try apply Hbr;
        apply normalize_scores_range; assumption.
Qed.

(** With a lexicon scorer that answers between -1 and 1 and a model
    scorer whose confidence is between 0 and 1, every result the analyzer
    returns, computed or cached, has its three scores between -1
    and 1. *)
Theorem analyze_text_scores_in_range (w : World)
    (text source symbol : string) (pub_date : option PyTime) (now : Z)
    (result : SentimentResult.t) :
  reachable w ->
  fst (analyze_text text source symbol pub_date now w) = Some result ->
  scores_in_range result.
Proof.
  intros Hreach Hres. apply reachable_scores_in_range in Hreach.
  destruct (find (DatabaseHandler.selected source text) (cache w))
    as [row |] eqn:Hfind.
  - rewrite (analyze_text_hit _ _ _ _ _ _ _ _ _ _ Hfind) in Hres.
    injection Hres as <-. apply find_some in Hfind.
    rewrite Forall_forall in Hreach. exact (Hreach row (proj1 Hfind)).
  - destruct (polarity_scores text) as [v |] eqn:Hv.
    + rewrite (analyze_text_miss _ _ _ _ _ _ _ _ _ _ Hfind Hv) in Hres.
      injection Hres as <-.
      pose proof (lexicon_range _ _ Hv) as Hvr.
      pose proof (analyze_bert_range text source
                    (snd (emit (VaderCall text) w))) as Hbr.
      repeat split; cbn; try apply Hvr; try apply Hbr;
        apply normalize_scores_range; assumption.
    + rewrite (analyze_text_vader_raises _ _ _ _ _ _ _ _ _ Hfind Hv) in Hres.
      discriminate Hres.
Qed.

End AnalyzerInvariants.

Lemma reachable_distinct_content_witness :
  NoDup (map content_key (cache after_first_call)).
Proof.
  apply (reachable_distinct_content steady_vader steady_bert first_seen).
  apply reachable_analyze, reachable_start.
Defined.

Lemma analyze_text_string_timestamp_not_cached_witness :
  exists result w',
    Analyzer.analyze_text steady_vader steady_bert first_seen
      "Gold rallies" "https://example.test/markets" "GC=F"
      (Some (TimeStr "2025-06-13T10:00:00")) 7 empty_world
    = (Some result, w')
    /\ SentimentResult.timestamp result = TimeStr "2025-06-13T10:00:00"
    /\ cache w' = cache empty_world
    /\ find (DatabaseHandler.selected "https://example.test/markets"
               "Gold rallies") (cache w') = None
    /\ last (events w') (VaderCall "Gold rallies")
       = LogError "caching sentiment result".
Proof.
  apply (analyze_text_string_timestamp_not_cached steady_vader steady_bert
           first_seen "Gold rallies" "https://example.test/markets" "GC=F"
           "2025-06-13T10:00:00" 7 empty_world 0.5);
    [reflexivity | reflexivity | discriminate].
Defined.

Lemma analyze_text_lexicon_failure_witness :
  exists w',
    Analyzer.analyze_text failing_vader steady_bert first_seen
      "Gold rallies" "rss" "GC=F" None 7 empty_world = (None, w')
    /\ cache w' = cache empty_world
    /\ events w'
       = events empty_world
         ++ [VaderCall "Gold rallies";
             LogError ("analyzing text from " ++ "rss")%string].
Proof.
  apply (analyze_text_lexicon_failure failing_vader steady_bert first_seen
           "Gold rallies" "rss" "GC=F" None 7 empty_world);
    reflexivity.
Defined.

Lemma steady_vader_range (text : string) (v : Q) :
  steady_vader text = Some v -> within (-1) 1 v.
Proof. intro H. injection H as <-. split; discriminate. Qed.

Lemma steady_bert_range (text label : string) (score : Q) :
  steady_bert text = Some (label, score) -> within 0 1 score.
Proof. intro H. injection H as _ <-. split; discriminate. Qed.

Lemma analyze_text_scores_in_range_witness :
  exists result,
    fst (Analyzer.analyze_text steady_vader steady_bert first_seen
           "Zinc slides" "rss" "GC=F" None 7 after_first_call)
    = Some result
    /\ scores_in_range result.
Proof.
  eexists. split; [reflexivity |].
  apply (analyze_text_scores_in_range steady_vader steady_bert first_seen
           steady_vader_range steady_bert_range after_first_call
           "Zinc slides" "rss" "GC=F" None 7).
  - apply reachable_analyze, reachable_start.
  - reflexivity.
Defined.

(** ** Strings: lower case, tokens, joining and splitting *)

Lemma lower_char_idempotent (c : ascii) :
  Py.lower_char (Py.lower_char c) = Py.lower_char c.
Proof. destruct c as [[] [] [] [] [] [] [] []]; reflexivity. Qed.

Lemma lower_char_isspace (c : ascii) :
  Py.isspace (Py.lower_char c) = Py.isspace c.
Proof. destruct c as [[] [] [] [] [] [] [] []]; reflexivity. Qed.

Lemma lower_idempotent (s : string) : Py.lower (Py.lower s) = Py.lower s.
Proof.
  induction s as [| c r IH]; cbn; [reflexivity |].
  now rewrite lower_char_idempotent, IH.
Qed.

Lemma lower_length (s : string) : String.length (Py.lower s) = String.length s.
Proof. induction s as [| c r IH]; cbn; [reflexivity | now rewrite IH]. Qed.

Lemma lower_nonspace (s : string) :
  Forall (fun c => Py.isspace c = false) (list_ascii_of_string s) ->
  Forall (fun c => Py.isspace c = false) (list_ascii_of_string (Py.lower s)).
Proof.
  induction s as [| c r IH]; cbn; intro H; [constructor |].
  inversion H as [| ? ? Hc Hr]; subst.
  constructor; [now rewrite lower_char_isspace | now apply IH].
Qed.

Lemma split_at_comma_free (sep : ascii) (x : string) (cur : list ascii) :
  ~ In sep (list_ascii_of_string x) ->
  Py.split_at sep cur x
  = [string_of_list_ascii (rev cur ++ list_ascii_of_string x)].
Proof.
  revert cur. induction x as [| c r IH]; intros cur Hfree; cbn.
  - now rewrite app_nil_r.
  - destruct (Ascii.eqb_spec c sep) as [-> | Hne].
    + exfalso. apply Hfree. now left.
    + rewrite IH by (intro H; apply Hfree; now right).
      cbn [rev]. now rewrite <- app_assoc.
Qed.

Lemma split_at_app (sep : ascii) (x s : string) (cur : list ascii) :
  ~ In sep (list_ascii_of_string x) ->
  Py.split_at sep cur (x ++ String sep s)
  = string_of_list_ascii (rev cur ++ list_ascii_of_string x)
    :: Py.split_at sep [] s.
Proof.
  revert cur. induction x as [| c r IH]; intros cur Hfree; cbn.
  - rewrite Ascii.eqb_refl. now rewrite app_nil_r.
  - destruct (Ascii.eqb_spec c sep) as [-> | Hne].
    + exfalso. apply Hfree. now left.
    + rewrite IH by (intro H; apply Hfree; now right).
      cbn [rev]. now rewrite <- app_assoc.
Qed.

(** Splitting the joined text gives the list back when no element holds
    the separator. *)
Lemma split_join (x : string) (l : list string) :
  Forall comma_free (x :: l) ->
  Py.split_sep "," (Py.join "," (x :: l)) = x :: l.
Proof.
  unfold Py.split_sep. revert x.
  induction l as [| y r IH]; intros x H; inversion H as [| ? ? Hx Hr]; subst.
  - cbn [Py.join]. rewrite split_at_comma_free by exact Hx.
    cbn. now rewrite string_of_list_ascii_of_string.
  - change (Py.join "," (x :: y :: r))
      with (x ++ String "," (Py.join "," (y :: r)))%string.
    rewrite split_at_app by exact Hx.
    cbn [rev app]. rewrite string_of_list_ascii_of_string.
    f_equal. now apply IH.
Qed.

Lemma join_empty (l : list string) :
  Py.join "," l = EmptyString -> l = [] \/ l = [EmptyString].
Proof.
  destruct l as [| x [| y r]]; cbn.
  - now left.
  - intros ->. now right.
  - destruct x; discriminate.
Qed.

Lemma cache_row_round_trip_keywords (result : SentimentResult.t) (us : Z) :
  SentimentResult.timestamp result = Datetime us ->
  Forall comma_free (SentimentResult.keywords result) ->
  SentimentResult.keywords result <> [EmptyString] ->
  DatabaseHandler.result_of (DatabaseHandler.row_of us result) = result.
Proof.
  destruct result as [symbol text source timestamp v b n keywords].
  cbn [SentimentResult.timestamp SentimentResult.keywords].
  intros -> Hfree Hne.
  unfold DatabaseHandler.result_of, DatabaseHandler.row_of.
  cbn [row_symbol row_text row_source row_timestamp row_vader_score
       row_bert_score row_normalized_score row_keywords
       SentimentResult.symbol SentimentResult.text SentimentResult.source
       SentimentResult.vader_score SentimentResult.bert_score
       SentimentResult.normalized_score SentimentResult.keywords].
  f_equal.
  destruct (Py.join "," keywords) as [| c rest] eqn:Hjoin.
  - apply join_empty in Hjoin. destruct Hjoin as [-> | ->];
      [reflexivity | contradiction].
  - rewrite <- Hjoin. destruct keywords as [| x l]; [discriminate |].
    now apply split_join.
Qed.

(** A result read back from the row it was written to is the result
    itself, provided that its timestamp is a [datetime], that no keyword
    holds a comma, and that its keywords are not the single empty
    string. *)
Theorem cache_row_round_trip (result : SentimentResult.t) (us : Z) :
  SentimentResult.timestamp result = Datetime us ->
  Forall comma_free (SentimentResult.keywords result) ->
  SentimentResult.keywords result <> [EmptyString] ->
  DatabaseHandler.result_of (DatabaseHandler.row_of us result) = result.
Proof. apply cache_row_round_trip_keywords. Qed.

Lemma cache_row_round_trip_witness :
  DatabaseHandler.result_of
    (DatabaseHandler.row_of 1000
       (SentimentResult.Build "GC=F" "Gold rallies" "rss" (Datetime 1000)
          0.5 0.9 0.66 ["gold"; "rallies"]%string))
  = SentimentResult.Build "GC=F" "Gold rallies" "rss" (Datetime 1000)
      0.5 0.9 0.66 ["gold"; "rallies"]%string.
Proof.
  apply cache_row_round_trip.
  - reflexivity.
  - constructor; [| constructor; [| constructor]];
      unfold comma_free; cbn; intuition discriminate.
  - discriminate.
Defined.

(** ** Analyzer: the keywords *)

Lemma In_firstn {A} (n : nat) (l : list A) (x : A) :
  In x (firstn n l) -> In x l.
Proof.
  intro H. rewrite <- (firstn_skipn n l). apply in_or_app. now left.
Qed.

Lemma NoDup_firstn {A} (n : nat) (l : list A) : NoDup l -> NoDup (firstn n l).
Proof.
  intro H. rewrite <- (firstn_skipn n l) in H.
  now apply NoDup_app_remove_r in H.
Qed.

Lemma extract_keywords_In (set_iter : list string -> list string)
    (text : string) (top_n : nat) (k : string) :
  valid_set_iter set_iter ->
  In k (Analyzer._extract_keywords set_iter text top_n) ->
  In k (Analyzer.keyword_words text).
Proof.
  intros Hvalid Hk. unfold Analyzer._extract_keywords in Hk. cbv zeta in Hk.
  apply in_map_iff in Hk. destruct Hk as (p & <- & Hp).
  apply In_firstn in Hp.
  apply (Permutation_in _ (sorted_desc_perm _)) in Hp.
  apply in_map_iff in Hp. destruct Hp as (word & <- & Hword).
  now apply (Hvalid (Analyzer.keyword_words text)).
Qed.

(** The keywords are at most [top_n] distinct strings, each longer than
    3 characters, in lower case and free of white space. *)
Theorem extract_keywords_shape (set_iter : list string -> list string)
    (text : string) (top_n : nat) :
  valid_set_iter set_iter ->
  let keywords := Analyzer._extract_keywords set_iter text top_n in
  (List.length keywords <= top_n)%nat
  /\ NoDup keywords
  /\ forall k,
       In k keywords ->
       (3 < String.length k)%nat
       /\ Py.lower k = k
       /\ Forall (fun c => Py.isspace c = false) (list_ascii_of_string k).
Proof.
  intros Hvalid keywords. split; [| split].
  - unfold keywords, Analyzer._extract_keywords. cbv zeta.
    rewrite length_map. apply firstn_le_length.
  - unfold keywords, Analyzer._extract_keywords. cbv zeta.
    rewrite <- firstn_map. apply NoDup_firstn.
    destruct (ranking_of_set
                (fun k => Py.count k (Analyzer.keyword_words text))
                (set_iter (Analyzer.keyword_words text))) as (Hperm & _).
    apply (Permutation_NoDup (Permutation_sym Hperm)).
    apply (Hvalid (Analyzer.keyword_words text)).
  - intros k Hk. apply (extract_keywords_In _ _ _ _ Hvalid) in Hk.
    apply keyword_words_spec in Hk. destruct Hk as (token & Hin & Hlen & ->).
    split; [now rewrite lower_length |]. split; [apply lower_idempotent |].
    apply lower_nonspace. now apply (split_tokens text).
Qed.

Lemma extract_keywords_shape_witness :
  valid_set_iter first_seen
  /\ (List.length (Analyzer._extract_keywords first_seen sample_headline 2)
      <= 2)%nat
  /\ NoDup (Analyzer._extract_keywords first_seen sample_headline 2)
  /\ forall k,
       In k (Analyzer._extract_keywords first_seen sample_headline 2) ->
       (3 < String.length k)%nat
       /\ Py.lower k = k
       /\ Forall (fun c => Py.isspace c = false) (list_ascii_of_string k).
Proof.
  split; [exact first_seen_valid |].
  exact (extract_keywords_shape first_seen sample_headline 2 first_seen_valid).
Defined.

Section AnalyzerRepeat.

Variable polarity_scores : string -> option Q.
Variable bert_pipeline : string -> option (string * Q).
Variable set_iter : list string -> list string.

Local Abbreviation analyze_text :=
  (Analyzer.analyze_text polarity_scores bert_pipeline set_iter).

(** A text whose first analysis was cached and gave only keywords without
    a comma is answered by every later call with exactly the first
    result, whatever symbol and publication date the later call names,
    and without any effect. *)
Theorem analyze_text_repeat_identical (w w1 : World)
    (text source symbol : string) (pub_date : option PyTime) (now us : Z)
    (result : SentimentResult.t) :
  valid_set_iter set_iter ->
  find (DatabaseHandler.selected source text) (cache w) = None ->
  analyze_text text source symbol pub_date now w = (Some result, w1) ->
  SentimentResult.timestamp result = Datetime us ->
  Forall comma_free (SentimentResult.keywords result) ->
  forall (symbol' : string) (pub_date' : option PyTime) (now' : Z),
    analyze_text text source symbol' pub_date' now' w1 = (Some result, w1).
Proof.
  intros Hvalid Hfind Hcall Hts Hfree symbol' pub_date' now'.
  rewrite (analyze_text_second_call _ _ _ _ _ _ _ _ _ _ _ _ Hfind Hcall Hts).
  f_equal. f_equal. apply cache_row_round_trip_keywords; try assumption.
  destruct (polarity_scores text) as [v |] eqn:Hv.
  - rewrite (analyze_text_miss _ _ _ _ _ _ _ _ _ _ Hfind Hv) in Hcall.
    cbv zeta in Hcall. injection Hcall as <- _.
    intro Hbad.
    change (Analyzer._extract_keywords set_iter text 5 = [EmptyString])
      in Hbad.
    assert (Hin : In EmptyString (Analyzer._extract_keywords set_iter text 5))
      by (rewrite Hbad; now left).
    apply (extract_keywords_In _ _ _ _ Hvalid) in Hin.
    apply keyword_words_spec in Hin.
    destruct Hin as (token & _ & Hlen & Hlow).
    apply (f_equal String.length) in Hlow. rewrite lower_length in Hlow.
    cbn in Hlow. lia.
  - rewrite (analyze_text_vader_raises _ _ _ _ _ _ _ _ _ Hfind Hv) in Hcall.
    discriminate Hcall.
Qed.

End AnalyzerRepeat.

Lemma gold_rallies_comma_free :
  Forall comma_free (Analyzer._extract_keywords first_seen "Gold rallies" 5).
Proof.
  constructor; [| constructor; [| constructor]];
    unfold comma_free; cbn; intuition discriminate.
Qed.

Lemma analyze_text_repeat_identical_witness :
  exists result,
    Analyzer.analyze_text steady_vader steady_bert first_seen
      "Gold rallies" "rss" "GC=F" (Some (Datetime 1000)) 0 empty_world
    = (Some result, after_first_call)
    /\ Analyzer.analyze_text steady_vader steady_bert first_seen
         "Gold rallies" "rss" "SI=F" None 7 after_first_call
       = (Some result, after_first_call).
Proof.
  exists (DatabaseHandler.result_of first_row). split; [reflexivity |].
  apply (analyze_text_repeat_identical steady_vader steady_bert first_seen
           empty_world after_first_call "Gold rallies" "rss" "GC=F"
           (Some (Datetime 1000)) 0 1000 _ first_seen_valid
           eq_refl eq_refl eq_refl gold_rallies_comma_free).
Defined.

(** ** Analyzer: the text handed to the model scorer *)

Lemma prefix_to_length (n : nat) (s : string) :
  (String.length (Py.prefix_to n s) <= n)%nat.
Proof.
  revert s. induction n as [| k IH]; intro s; cbn; [lia |].
  destruct s as [| c r]; cbn; [lia |]. specialize (IH r). lia.
Qed.

Lemma prefix_to_In (n : nat) (s : string) (c : ascii) :
  In c (list_ascii_of_string (Py.prefix_to n s)) ->
  In c (list_ascii_of_string s).
Proof.
  revert s. induction n as [| k IH]; intro s; cbn; [tauto |].
  destruct s as [| d r]; cbn; [tauto |].
  intros [-> | H]; [now left | right; now apply IH].
Qed.

Lemma prefix_to_head (n : nat) (s : string) (c : ascii) (rest : string) :
  Py.prefix_to n s = String c rest -> exists rest', s = String c rest'.
Proof.
  destruct n as [| k]; cbn; [discriminate |].
  destruct s as [| d r]; [discriminate |].
  intro H. injection H as -> _. now exists r.
Qed.

Lemma lstrip_suffix (s : string) :
  exists p,
    list_ascii_of_string s = p ++ list_ascii_of_string (Py.lstrip s).
Proof.
  induction s as [| c r [p IH]]; cbn.
  - now exists [].
  - destruct (Py.isspace c).
    + exists (c :: p). cbn. now rewrite IH.
    + now exists [].
Qed.

Lemma lstrip_head (s : string) (c : ascii) (rest : string) :
  Py.lstrip s = String c rest -> Py.isspace c = false.
Proof.
  induction s as [| d r IH]; cbn; [discriminate |].
  destruct (Py.isspace d) eqn:Hd; [exact IH |].
  intro H. now injection H as <- _.
Qed.

Lemma string_rev_list (s : string) :
  list_ascii_of_string (Py.string_rev s) = rev (list_ascii_of_string s).
Proof.
  unfold Py.string_rev. apply list_ascii_of_string_of_list_ascii.
Qed.

Lemma strip_prefix (s : string) :
  exists q,
    list_ascii_of_string (Py.lstrip s)
    = list_ascii_of_string (Py.strip s) ++ q.
Proof.
  unfold Py.strip. rewrite string_rev_list.
  destruct (lstrip_suffix (Py.string_rev (Py.lstrip s))) as [p Hp].
  rewrite string_rev_list in Hp. exists (rev p).
  rewrite <- rev_app_distr, <- Hp. now rewrite rev_involutive.
Qed.

Lemma strip_head (s : string) (c : ascii) (rest : string) :
  Py.strip s = String c rest -> Py.isspace c = false.
Proof.
  intro H. destruct (strip_prefix s) as [q Hq]. rewrite H in Hq. cbn in Hq.
  destruct (Py.lstrip s) as [| d r] eqn:Hl; [discriminate |].
  cbn in Hq. injection Hq as -> _. exact (lstrip_head s c r Hl).
Qed.

Lemma strip_In (s : string) (c : ascii) :
  In c (list_ascii_of_string (Py.strip s)) -> In c (list_ascii_of_string s).
Proof.
  intro H. destruct (strip_prefix s) as [q Hq].
  destruct (lstrip_suffix s) as [p Hp]. rewrite Hp, Hq.
  apply in_or_app. right. apply in_or_app. now left.
Qed.

Lemma remove_mentions_no_hash (s : string) (inside : bool) :
  ~ In "#"%char (list_ascii_of_string (Analyzer.remove_mentions inside s)).
Proof.
  revert inside. induction s as [| c r IH]; intro inside; cbn; [tauto |].
  destruct (inside && Py.isword c); [apply IH |].
  destruct (Ascii.eqb c "@" && _); [apply IH |].
  destruct (Ascii.eqb_spec c "#") as [-> | Hne]; [apply IH |].
  cbn. intros [Heq | Hin]; [congruence | now apply (IH false)].
Qed.

(** The text handed to the model scorer is at most [max_length]
    characters long, holds no hash sign and does not begin with white
    space. *)
Theorem clean_and_truncate_text_shape (text : string) (max_length : nat) :
  let cleaned := Analyzer._clean_and_truncate_text text max_length in
  (String.length cleaned <= max_length)%nat
  /\ ~ In "#"%char (list_ascii_of_string cleaned)
  /\ (forall c rest, cleaned = String c rest -> Py.isspace c = false).
Proof.
  cbv zeta. unfold Analyzer._clean_and_truncate_text. cbv zeta.
  split; [apply prefix_to_length |]. split.
  - intro H. apply prefix_to_In, strip_In in H.
    exact (remove_mentions_no_hash _ _ H).
  - intros c rest H. apply prefix_to_head in H. destruct H as [rest' H].
    exact (strip_head _ _ _ H).
Qed.

(** ** Pipeline *)

Lemma logged_nil (w : World) : logged w [] = w.
Proof. destruct w. unfold logged. cbn. now rewrite app_nil_r. Qed.

Lemma logged_app (w : World) (a b : list Event) :
  logged (logged w a) b = logged w (a ++ b).
Proof. unfold logged. cbn. now rewrite app_assoc. Qed.

Lemma generate_trend_signals_logs (to_datetime : string -> option Z)
    (self : TrendGenerator.t) (now : Z) (data : list SentimentResult.t)
    (w : World) :
  exists entries,
    snd (TrendGenerator.generate_trend_signals to_datetime self now data w)
    = logged w entries.
Proof.
  unfold TrendGenerator.generate_trend_signals.
  destruct (_ || _); [eexists [_]; reflexivity |].
  destruct (TrendGenerator.resampled _ _ _) as [df |];
    [| eexists [_]; reflexivity].
  destruct (_ <? _)%nat; [eexists [_]; reflexivity |].
  destruct (TrendGenerator.rolling_mean_last _ df);
    [| eexists [_]; reflexivity].
  destruct (TrendGenerator.rolling_mean_last _ df);
    [| eexists [_]; reflexivity].
  destruct (TrendGenerator.rolling_mean_last _ df);
    [| eexists [_]; reflexivity].
  exists []. cbn. now rewrite logged_nil.
Qed.

Lemma generate_trend_signals_few_items (to_datetime : string -> option Z)
    (self : TrendGenerator.t) (now : Z) (data : list SentimentResult.t)
    (w : World) :
  (List.length data < TrendGenerator.max_window self)%nat ->
  TrendGenerator.generate_trend_signals to_datetime self now data w
  = (None, warned w "Insufficient data for trend analysis").
Proof.
  intro H. unfold TrendGenerator.generate_trend_signals.
  apply Nat.ltb_lt in H. rewrite H, orb_true_r. reflexivity.
Qed.

Section PipelineRuns.

Variable polarity_scores : string -> option Q.
Variable bert_pipeline : string -> option (string * Q).
Variable set_iter : list string -> list string.
Variable to_datetime : string -> option Z.
Variable history : string -> string -> option (list Q).

Local Abbreviation reachable :=
  (reachable polarity_scores bert_pipeline set_iter).
Local Abbreviation analyze_items :=
  (Pipeline.analyze_items polarity_scores bert_pipeline set_iter).
Local Abbreviation current_price := (Pipeline.current_price history).
Local Abbreviation run_pipeline :=
  (Pipeline.run_pipeline polarity_scores bert_pipeline set_iter to_datetime
     history).

Lemma reachable_logged (w : World) (entries : list Event) :
  reachable w -> reachable (logged w entries).
Proof.
  intro H. induction entries as [| e r IH] using rev_ind.
  - now rewrite logged_nil.
  - rewrite <- logged_app. exact (reachable_emit _ _ _ _ e IH).
Qed.

Lemma current_price_logs (symbol : string) (w : World) :
  exists entries, snd (current_price symbol w) = logged w entries.
Proof.
  unfold Pipeline.current_price.
  destruct (history symbol "5d") as [[| c closes] |].
  - destruct (history symbol "30d") as [[| c closes] |].
    + eexists [_; _]. unfold bind, log_warning, emit, ret, logged.
      cbn [fst snd cache events]. now rewrite <- app_assoc.
    + eexists [_]. reflexivity.
    + eexists [_; _]. unfold bind, log_warning, log_error, emit, ret, logged.
      cbn [fst snd cache events]. now rewrite <- app_assoc.
  - exists []. cbn. now rewrite logged_nil.
  - eexists [_]. reflexivity.
Qed.

Lemma analyze_items_step (item : Pipeline.Item) (rest : list Pipeline.Item)
    (symbol : string) (clock : nat -> Z) (k : nat) (w : World) :
  let first :=
    Analyzer.analyze_text polarity_scores bert_pipeline set_iter
      (snd (item_content item)) (fst (item_content item)) symbol
      (Pipeline.published item) (clock k) w in
  let others := analyze_items rest symbol clock (S k) (snd first) in
  analyze_items (item :: rest) symbol clock k w
  = (match fst first with
     | Some r => r :: fst others
     | None => fst others
     end,
     snd others).
Proof.
  cbv zeta. cbn [Pipeline.analyze_items]. unfold bind at 1.
  unfold item_content. cbn [fst snd].
  destruct (Analyzer.analyze_text _ _ _ _ _ _ _ _ w) as [result w1].
  unfold bind. cbn [fst snd].
  destruct (Pipeline.analyze_items _ _ _ rest symbol clock (S k) w1)
    as [results w2].
  reflexivity.
Qed.

Lemma analyze_items_reachable (items : list Pipeline.Item) (symbol : string)
    (clock : nat -> Z) (k : nat) (w : World) :
  reachable w -> reachable (snd (analyze_items items symbol clock k w)).
Proof.
  revert k w. induction items as [| item rest IH]; intros k w Hw.
  - exact Hw.
  - rewrite analyze_items_step. cbv zeta. cbn [snd].
    apply IH. now apply reachable_analyze.
Qed.

Lemma analyze_items_length (items : list Pipeline.Item) (symbol : string)
    (clock : nat -> Z) (k : nat) (w : World) :
  (List.length (fst (analyze_items items symbol clock k w))
   <= List.length items)%nat.
Proof.
  revert k w. induction items as [| item rest IH]; intros k w.
  - cbn. lia.
  - rewrite analyze_items_step. cbv zeta. cbn [fst].
    set (first := Analyzer.analyze_text _ _ _ _ _ _ _ _ w).
    specialize (IH (S k) (snd first)).
    destruct (fst first); cbn [List.length]; lia.
Qed.

(** A pipeline run leaves the world reachable: every invariant of the
    score cache that holds before a run holds after it. *)
Theorem run_pipeline_reachable (self : Pipeline.t)
    (content_items : list Pipeline.Item) (symbol : string)
    (clock : nat -> Z) (w : World) :
  reachable w ->
  reachable (snd (run_pipeline self content_items symbol clock w)).
Proof.
  intro Hw. unfold Pipeline.run_pipeline. cbv zeta. unfold bind at 1.
  pose proof (analyze_items_reachable content_items symbol clock 0 w Hw)
    as Hw1.
  destruct (Pipeline.analyze_items _ _ _ content_items symbol clock 0 w)
    as [results w1]. cbn [snd] in Hw1.
  destruct results as [| r results].
  - exact (reachable_emit _ _ _ _ _ Hw1).
  - unfold bind at 1.
    destruct (generate_trend_signals_logs to_datetime
                (Pipeline.trend_generator self)
                (clock (List.length content_items)) (r :: results) w1)
      as [entries Hlog].
    destruct (TrendGenerator.generate_trend_signals _ _ _ _ w1)
      as [trend w2]. cbn [snd] in Hlog. subst w2.
    pose proof (reachable_logged w1 entries Hw1) as Hw2.
    destruct trend as [trend |].
    + unfold bind at 1.
      destruct (current_price_logs symbol (logged w1 entries))
        as [more Hmore].
      destruct (Pipeline.current_price _ _ _) as [price w3].
      cbn [snd] in Hmore. subst w3.
      destruct (SignalGenerator.generate_trading_signal _ _ _ _ _);
        cbn [ret snd]; now apply reachable_logged.
    + exact (reachable_emit _ _ _ _ _ Hw2).
Qed.

(** A run on fewer items than the largest window generates neither a
    trend nor a trading signal: after the analyses it only logs
    warnings (one when nothing was analysed, else the trend generator's
    and its own) and completes. *)
Theorem run_pipeline_few_items (self : Pipeline.t)
    (content_items : list Pipeline.Item) (symbol : string)
    (clock : nat -> Z) (w : World) :
  (List.length content_items
   < TrendGenerator.max_window (Pipeline.trend_generator self))%nat ->
  exists results entries,
    run_pipeline self content_items symbol clock w
    = ([Pipeline.Starting; Pipeline.Fetched (List.length content_items);
        Pipeline.Analyzed results; Pipeline.Completed],
       logged (snd (analyze_items content_items symbol clock 0 w)) entries)
    /\ (results <= List.length content_items)%nat
    /\ (results = 0%nat
         /\ entries = [LogWarning "No sentiment results to analyze"]
        \/ (0 < results)%nat
           /\ entries
              = [LogWarning "Insufficient data for trend analysis";
                 LogWarning
                   "Failed to generate trend signal from sentiment results"]).
Proof.
  intro Hfew. unfold Pipeline.run_pipeline. cbv zeta. unfold bind at 1.
  pose proof (analyze_items_length content_items symbol clock 0 w) as Hlen.
  destruct (Pipeline.analyze_items _ _ _ content_items symbol clock 0 w)
    as [results w1]. cbn [fst snd] in *.
  destruct results as [| r results].
  - exists 0%nat. eexists. split; [reflexivity |].
    split; [lia | left; split; reflexivity].
  - unfold bind at 1.
    rewrite generate_trend_signals_few_items by lia.
    exists (List.length (r :: results)). eexists. split.
    + unfold bind, log_warning, emit, ret, warned, logged.
      cbn [fst snd cache events app]. rewrite <- app_assoc. reflexivity.
    + split; [exact Hlen | right; split; [cbn; lia | reflexivity]].
Qed.

(** When a trend signal was generated and no closing price can be had
    (the request raises, or both histories are empty), the run still
    emits a trading signal, with the price 0. *)
Theorem run_pipeline_price_fallback (self : Pipeline.t)
    (content_items : list Pipeline.Item) (symbol : string)
    (clock : nat -> Z) (w w1 w2 : World)
    (results : list SentimentResult.t) (trend : TrendSignal.t) :
  analyze_items content_items symbol clock 0 w = (results, w1) ->
  TrendGenerator.generate_trend_signals to_datetime
    (Pipeline.trend_generator self) (clock (List.length content_items))
    results w1 = (Some trend, w2) ->
  history symbol "5d" = None
  \/ (history symbol "5d" = Some []
      /\ (history symbol "30d" = None \/ history symbol "30d" = Some [])) ->
  exists trading w',
    run_pipeline self content_items symbol clock w
    = ([Pipeline.Starting; Pipeline.Fetched (List.length content_items);
        Pipeline.Analyzed (List.length results);
        Pipeline.GeneratedTrend trend; Pipeline.GeneratedTrading trading;
        Pipeline.Completed], w')
    /\ TradingSignal.price trading = 0
    /\ TradingSignal.symbol trading = symbol
    /\ TradingSignal.sentiment_score trading
       = TrendSignal.short_term_trend trend.
Proof.
  intros Hitems Htrend Hprice.
  unfold Pipeline.run_pipeline. cbv zeta. unfold bind at 1.
  rewrite Hitems.
  destruct results as [| r results]; [discriminate Htrend |].
  unfold bind at 1. rewrite Htrend. unfold bind at 1.
  assert (Hzero : fst (current_price symbol w2) = 0).
  { unfold Pipeline.current_price.
    destruct Hprice as [-> | [-> [-> | ->]]]; reflexivity. }
  destruct (Pipeline.current_price history symbol w2) as [price w3].
  cbn [fst] in Hzero. subst price.
  unfold SignalGenerator.generate_trading_signal.
  do 2 eexists. split; [reflexivity |]. repeat split.
Qed.

Lemma analyze_text_content (text source symbol : string)
    (pub_date : option PyTime) (now : Z) (w : World)
    (result : SentimentResult.t) :
  fst (Analyzer.analyze_text polarity_scores bert_pipeline set_iter
         text source symbol pub_date now w) = Some result ->
  result_content result = (source, text).
Proof.
  destruct (find (DatabaseHandler.selected source text) (cache w))
    as [row |] eqn:Hfind.
  - rewrite (analyze_text_hit _ _ _ _ _ _ _ _ _ _ Hfind). cbn [fst].
    intro H. injection H as <-. apply find_some in Hfind.
    destruct Hfind as [_ Hsel]. unfold DatabaseHandler.selected in Hsel.
    apply andb_prop in Hsel. destruct Hsel as [Hs Ht].
    apply String.eqb_eq in Hs, Ht. unfold result_content. cbn.
    now rewrite Hs, Ht.
  - destruct (polarity_scores text) as [v |] eqn:Hv.
    + rewrite (analyze_text_miss _ _ _ _ _ _ _ _ _ _ Hfind Hv). cbn [fst].
      intro H. now injection H as <-.
    + rewrite (analyze_text_vader_raises _ _ _ _ _ _ _ _ _ Hfind Hv).
      discriminate.
Qed.

Lemma analyze_text_answers (text source symbol : string)
    (pub_date : option PyTime) (now : Z) (w : World) :
  polarity_scores text <> None ->
  fst (Analyzer.analyze_text polarity_scores bert_pipeline set_iter
         text source symbol pub_date now w) <> None.
Proof.
  intro Hv.
  destruct (find (DatabaseHandler.selected source text) (cache w))
    as [row |] eqn:Hfind.
  - now rewrite (analyze_text_hit _ _ _ _ _ _ _ _ _ _ Hfind).
  - destruct (polarity_scores text) as [v |] eqn:Hv'; [| congruence].
    now rewrite (analyze_text_miss _ _ _ _ _ _ _ _ _ _ Hfind Hv').
Qed.

(** When the lexicon scorer never raises, the loop returns one result per
    content item, in the order of the items, each for the source and the
    stripped title and summary of its item. *)
Theorem analyze_items_accounts_for_all (items : list Pipeline.Item)
    (symbol : string) (clock : nat -> Z) (k : nat) (w : World) :
  (forall text, polarity_scores text <> None) ->
  map result_content (fst (analyze_items items symbol clock k w))
  = map item_content items.
Proof.
  intro Htotal. revert k w.
  induction items as [| item rest IH]; intros k w; [reflexivity |].
  rewrite analyze_items_step. cbv zeta. cbn [fst].
  set (first := Analyzer.analyze_text _ _ _ _ _ _ _ _ w).
  destruct (fst first) as [r |] eqn:Hfirst.
  - cbn [map]. rewrite IH. f_equal.
    rewrite (analyze_text_content _ _ _ _ _ _ _ Hfirst).
    now destruct (item_content item).
  - exfalso. exact (analyze_text_answers _ _ _ _ _ _ (Htotal _) Hfirst).
Qed.

End PipelineRuns.

Lemma run_pipeline_reachable_witness :
  reachable steady_vader steady_bert first_seen
    (snd (Pipeline.run_pipeline steady_vader steady_bert first_seen no_parser
            no_history default_pipeline (hourly_items 2) "GC=F" epoch_clock
            empty_world)).
Proof.
  apply run_pipeline_reachable. apply reachable_start.
Defined.

Lemma run_pipeline_few_items_witness :
  exists results entries,
    Pipeline.run_pipeline steady_vader steady_bert first_seen no_parser
      no_history default_pipeline (hourly_items 2) "GC=F" epoch_clock
      empty_world
    = ([Pipeline.Starting; Pipeline.Fetched 2; Pipeline.Analyzed results;
        Pipeline.Completed],
       logged
         (snd (Pipeline.analyze_items steady_vader steady_bert first_seen
                 (hourly_items 2) "GC=F" epoch_clock 0 empty_world))
         entries)
    /\ (results <= 2)%nat
    /\ (results = 0%nat
         /\ entries = [LogWarning "No sentiment results to analyze"]
        \/ (0 < results)%nat
           /\ entries
              = [LogWarning "Insufficient data for trend analysis";
                 LogWarning
                   "Failed to generate trend signal from sentiment results"]).
Proof.
  apply (run_pipeline_few_items steady_vader steady_bert first_seen no_parser
           no_history default_pipeline (hourly_items 2) "GC=F" epoch_clock
           empty_world).
  cbn. lia.
Defined.

Lemma run_pipeline_price_fallback_witness :
  exists results trend trading w',
    Pipeline.run_pipeline steady_vader steady_bert first_seen no_parser
      no_history default_pipeline (hourly_items 14) "GC=F" epoch_clock
      empty_world
    = ([Pipeline.Starting; Pipeline.Fetched 14; Pipeline.Analyzed results;
        Pipeline.GeneratedTrend trend; Pipeline.GeneratedTrading trading;
        Pipeline.Completed], w')
    /\ TradingSignal.price trading = 0.
Proof.
  pose (analysed :=
          Pipeline.analyze_items steady_vader steady_bert first_seen
            (hourly_items 14) "GC=F" epoch_clock 0 empty_world).
  assert (Htrend :
            exists trend,
              TrendGenerator.generate_trend_signals no_parser
                (Pipeline.trend_generator default_pipeline)
                (epoch_clock (List.length (hourly_items 14)))
                (fst analysed) (snd analysed)
              = (Some trend, snd analysed)).
  { eexists. vm_compute. reflexivity. }
  destruct Htrend as [trend Htrend].
  destruct (run_pipeline_price_fallback steady_vader steady_bert first_seen
              no_parser no_history default_pipeline (hourly_items 14) "GC=F"
              epoch_clock empty_world (snd analysed) (snd analysed)
              (fst analysed) trend (surjective_pairing analysed) Htrend
              (or_intror (conj eq_refl (or_intror eq_refl))))
    as (trading & w' & Hrun & Hprice & _).
  exists (List.length (fst analysed)), trend, trading, w'.
  split; [exact Hrun | exact Hprice].
Defined.

Lemma steady_vader_total (text : string) : steady_vader text <> None.
Proof. discriminate. Qed.

Lemma analyze_items_accounts_for_all_witness :
  map result_content
      (fst (Pipeline.analyze_items steady_vader steady_bert first_seen
              (hourly_items 3) "GC=F" epoch_clock 0 empty_world))
  = map item_content (hourly_items 3).
Proof.
  apply analyze_items_accounts_for_all. exact steady_vader_total.
Defined.



(** ** Dashboard: clearing the cache of a symbol *)

Lemma NoDup_map_injective {A B} (f : A -> B) (l : list A) (x y : A) :
  NoDup (map f l) -> In x l -> In y l -> f x = f y -> x = y.
Proof.
  induction l as [| a r IH]; cbn; [tauto |].
  intros Hnd Hx Hy Hf. inversion Hnd as [| ? ? Hnotin Hr]; subst.
  destruct Hx as [-> | Hx], Hy as [-> | Hy].
  - reflexivity.
  - exfalso. apply Hnotin. rewrite Hf. now apply in_map.
  - exfalso. apply Hnotin. rewrite <- Hf. now apply in_map.
  - now apply IH.
Qed.

Lemma selected_content (source text : string) (row : Row) :
  DatabaseHandler.selected source text row = true <->
  content_key row = (source, text).
Proof.
  unfold DatabaseHandler.selected, content_key.
  rewrite andb_true_iff, !String.eqb_eq. split.
  - now intros [-> ->].
  - intro H. now injection H.
Qed.

(** In a table with at most one row per content, clearing the cache of a
    symbol turns the lookup of a content cached under that symbol into a
    miss and leaves the lookup of a content cached under any other symbol
    as it was. *)
Theorem clear_cache_then_lookup (symbol source text : string) (w : World)
    (row : Row) :
  NoDup (map content_key (cache w)) ->
  find (DatabaseHandler.selected source text) (cache w) = Some row ->
  fst (DatabaseHandler.get_cached_sentiment source text
         (snd (Dashboard._clear_sentiment_cache_for_symbol symbol w)))
  = if String.eqb (row_symbol row) symbol then None
    else Some (DatabaseHandler.result_of row).
Proof.
  intros Hnd Hfind. unfold DatabaseHandler.get_cached_sentiment,
    Dashboard._clear_sentiment_cache_for_symbol. cbn [fst snd cache].
  apply find_some in Hfind. destruct Hfind as [Hin Hsel].
  set (kept := fun r : Row => negb (String.eqb (row_symbol r) symbol)).
  destruct (find (DatabaseHandler.selected source text)
                 (filter kept (cache w))) as [other |] eqn:Hother.
  - apply find_some in Hother. destruct Hother as [Ho Hosel].
    apply filter_In in Ho. destruct Ho as [Ho Hkept].
    assert (other = row) as ->.
    { apply (NoDup_map_injective content_key (cache w)); try assumption.
      apply selected_content in Hsel, Hosel. congruence. }
    unfold kept in Hkept. apply negb_true_iff in Hkept.
    now rewrite Hkept.
  - destruct (String.eqb (row_symbol row) symbol) eqn:Hsym; [reflexivity |].
    exfalso.
    assert (Hrow : In row (filter kept (cache w))).
    { apply filter_In. split; [exact Hin |]. unfold kept. now rewrite Hsym. }
    pose proof (find_none _ _ Hother row Hrow) as Hno. congruence.
Qed.

Lemma clear_cache_then_lookup_witness :
  fst (DatabaseHandler.get_cached_sentiment "rss" "Gold rallies"
         (snd (Dashboard._clear_sentiment_cache_for_symbol "SI=F"
                 after_first_call)))
  = Some (DatabaseHandler.result_of first_row)
  /\ fst (DatabaseHandler.get_cached_sentiment "rss" "Gold rallies"
            (snd (Dashboard._clear_sentiment_cache_for_symbol "GC=F"
                    after_first_call)))
     = None.
Proof.
  split.
  - apply (clear_cache_then_lookup "SI=F" "rss" "Gold rallies"
             after_first_call first_row).
    + repeat constructor. cbn. tauto.
    + reflexivity.
  - reflexivity.
Defined.

(** ** DatabaseHandler: the unique key *)

Lemma same_key_unique_key (a b : Row) :
  DatabaseHandler.same_key a b = true <-> unique_key a = unique_key b.
Proof.
  unfold DatabaseHandler.same_key, unique_key.
  rewrite !andb_true_iff, !String.eqb_eq. split.
  - now intros [[-> ->] ->].
  - intro H. now injection H.
Qed.

(** Dropping rows from a table whose keys are distinct leaves the keys
    distinct. *)
Lemma unique_key_survives_delete (keep : Row -> bool) (table : list Row) :
  NoDup (map unique_key table) ->
  NoDup (map unique_key (filter keep table)).
Proof.
  intro Hnd. induction table as [| row rest IH]; [exact Hnd |].
  cbn [map] in Hnd. apply NoDup_cons_iff in Hnd. destruct Hnd as [Hrow Hrest].
  cbn [filter]. destruct (keep row); [| exact (IH Hrest)].
  cbn [map]. apply NoDup_cons; [| exact (IH Hrest)].
  rewrite in_map_iff. intros (other & Hkey & Hother).
  apply Hrow. rewrite <- Hkey. apply in_map.
  now apply filter_In in Hother.
Qed.

(** Writing a result keeps the unique key unique.  The write succeeds
    without logging, the written row is the last row of the table, and
    every row with another key stays. *)
Theorem cache_sentiment_result_keeps_unique (result : SentimentResult.t)
    (us : Z) (w : World) :
  SentimentResult.timestamp result = Datetime us ->
  NoDup (map unique_key (cache w)) ->
  let out := DatabaseHandler.cache_sentiment_result result w in
  let row := DatabaseHandler.row_of us result in
  fst out = true
  /\ events (snd out) = events w
  /\ NoDup (map unique_key (cache (snd out)))
  /\ last (cache (snd out)) row = row
  /\ forall other,
       In other (cache w) -> unique_key other <> unique_key row ->
       In other (cache (snd out)).
Proof.
  intros Hts Hnd. cbv zeta. unfold DatabaseHandler.cache_sentiment_result.
  rewrite Hts. cbn [fst snd cache events].
  unfold DatabaseHandler.insert_or_replace.
  split; [reflexivity |]. split; [reflexivity |]. split; [| split].
  - rewrite map_app. cbn [map]. apply NoDup_snoc.
    + now apply unique_key_survives_delete.
    + intro Hin. apply in_map_iff in Hin. destruct Hin as (x & Hx & Hxin).
      apply filter_In in Hxin. destruct Hxin as [_ Hneq].
      apply negb_true_iff in Hneq.
      apply same_key_unique_key in Hx. congruence.
  - apply last_last.
  - intros other Hin Hkey. apply in_or_app. left. apply filter_In.
    split; [exact Hin |]. apply negb_true_iff.
    destruct (DatabaseHandler.same_key other _) eqn:E; [| reflexivity].
    apply same_key_unique_key in E. contradiction.
Qed.

Lemma cache_sentiment_result_keeps_unique_witness :
  let result :=
    SentimentResult.Build "GC=F" "Gold rallies" "rss" (Datetime 2000)
      0.1 0.2 0.14 ["gold"; "rallies"]%string in
  let out := DatabaseHandler.cache_sentiment_result result after_first_call in
  NoDup (map unique_key (cache (snd out)))
  /\ cache (snd out) = [DatabaseHandler.row_of 2000 result].
Proof.
  cbv zeta. split.
  - refine (proj1 (proj2 (proj2 (cache_sentiment_result_keeps_unique
                                   (SentimentResult.Build "GC=F"
                                      "Gold rallies" "rss" (Datetime 2000)
                                      0.1 0.2 0.14 ["gold"; "rallies"]%string)
                                   2000 after_first_call eq_refl _)))).
    repeat constructor. cbn. tauto.
  - reflexivity.
Defined.

(** ** TrendGenerator: the order of the batch *)

Lemma Qplus_comm_eq (x y : Q) : Qplus x y = Qplus y x.
Proof.
  unfold Qplus. f_equal; [apply Z.add_comm | apply Pos.mul_comm].
Qed.

Lemma Qplus_assoc_eq (x y z : Q) : Qplus (Qplus x y) z = Qplus x (Qplus y z).
Proof.
  destruct x as [xn xd], y as [yn yd], z as [zn zd]. unfold Qplus.
  cbn [Qnum Qden]. f_equal.
  - rewrite !Pos2Z.inj_mul. ring.
  - symmetry. apply Pos.mul_assoc.
Qed.

Lemma fold_Qplus_perm (l l' : list Q) :
  Permutation l l' ->
  forall a, fold_left Qplus l a = fold_left Qplus l' a.
Proof.
  induction 1 as [| x l l' _ IH | x y l | l l' l'' _ IH1 _ IH2]; intro a.
  - reflexivity.
  - cbn. apply IH.
  - cbn. f_equal.
    rewrite !Qplus_assoc_eq. f_equal. apply Qplus_comm_eq.
  - now rewrite IH1.
Qed.

Lemma mean_perm (l l' : list Q) :
  Permutation l l' -> TrendGenerator.mean l = TrendGenerator.mean l'.
Proof.
  intro H. destruct l as [| x r], l' as [| x' r'].
  - reflexivity.
  - apply Permutation_nil in H. discriminate.
  - apply Permutation_sym, Permutation_nil in H. discriminate.
  - unfold TrendGenerator.mean, TrendGenerator.total.
    now rewrite (fold_Qplus_perm _ _ H), (Permutation_length H).
Qed.

Lemma filter_perm {A} (p : A -> bool) (l l' : list A) :
  Permutation l l' -> Permutation (filter p l) (filter p l').
Proof.
  induction 1 as [| x l l' _ IH | x y l | l l' l'' _ IH1 _ IH2]; cbn.
  - constructor.
  - destruct (p x); [now constructor | exact IH].
  - destruct (p x), (p y); try reflexivity. apply perm_swap.
  - now transitivity (filter p l').
Qed.

Lemma insert_by_time_sorted (x : Z * Q) (l : list (Z * Q)) :
  StronglySorted by_time l ->
  StronglySorted by_time (TrendGenerator.insert_by_time x l).
Proof.
  induction 1 as [| y r Hsorted IH Hall]; cbn.
  - repeat constructor.
  - destruct (fst x <=? fst y)%Z eqn:E.
    + apply Z.leb_le in E. constructor; [now constructor |].
      constructor; [exact E |].
      rewrite Forall_forall in *. intros z Hz. specialize (Hall z Hz).
      unfold by_time in *. lia.
    + apply Z.leb_gt in E. constructor; [exact IH |].
      rewrite Forall_forall in *. intros z Hz.
      apply (Permutation_in _ (insert_by_time_perm x r)) in Hz.
      destruct Hz as [<- | Hz]; [unfold by_time; lia | now apply Hall].
Qed.

Lemma sort_values_sorted (rows : list (Z * Q)) :
  StronglySorted by_time (TrendGenerator.sort_values rows).
Proof.
  induction rows as [| x r IH]; cbn; [constructor |].
  now apply insert_by_time_sorted.
Qed.

Lemma sorted_last_max (l : list (Z * Q)) (d y : Z * Q) :
  StronglySorted by_time l -> In y l -> by_time y (last l d).
Proof.
  induction 1 as [| x r Hsorted IH Hall]; [contradiction |].
  intros [<- | Hy].
  - destruct r as [| z r']; [unfold by_time; cbn; lia |].
    rewrite Forall_forall in Hall. apply Hall.
    apply (last_In (z :: r') d). discriminate.
  - destruct r as [| z r']; [contradiction |]. now apply IH.
Qed.

(** Two sorted arrangements of the same rows are resampled alike. *)
Lemma resample_mean_perm (width : Z) (rows rows' : list (Z * Q)) :
  StronglySorted by_time rows -> StronglySorted by_time rows' ->
  Permutation rows rows' ->
  TrendGenerator.resample_mean width rows
  = TrendGenerator.resample_mean width rows'.
Proof.
  intros Hs Hs' Hperm.
  destruct rows as [| first rest], rows' as [| first' rest'].
  - reflexivity.
  - apply Permutation_nil in Hperm. discriminate.
  - apply Permutation_sym, Permutation_nil in Hperm. discriminate.
  - assert (Hfirst : fst first = fst first').
    { inversion Hs as [| ? ? _ Hall]; inversion Hs' as [| ? ? _ Hall'];
        subst. rewrite Forall_forall in Hall, Hall'.
      assert (In first' (first :: rest))
        by (apply (Permutation_in _ (Permutation_sym Hperm)); now left).
      assert (In first (first' :: rest'))
        by (apply (Permutation_in _ Hperm); now left).
      assert (by_time first first')
        by (destruct H as [<- | H]; [unfold by_time; lia | now apply Hall]).
      assert (by_time first' first)
        by (destruct H0 as [<- | H0]; [unfold by_time; lia | now apply Hall']).
      unfold by_time in *. lia. }
    assert (Hlast : fst (last (first :: rest) first)
                    = fst (last (first' :: rest') first')).
    { pose proof (sorted_last_max _ first (last (first' :: rest') first') Hs)
        as H1.
      pose proof (sorted_last_max _ first' (last (first :: rest) first) Hs')
        as H2.
      assert (by_time (last (first' :: rest') first')
                      (last (first :: rest) first)).
      { apply H1. apply (Permutation_in _ (Permutation_sym Hperm)).
        apply last_In. discriminate. }
      assert (by_time (last (first :: rest) first)
                      (last (first' :: rest') first')).
      { apply H2. apply (Permutation_in _ Hperm).
        apply last_In. discriminate. }
      unfold by_time in *. lia. }
    unfold TrendGenerator.resample_mean. rewrite Hfirst, Hlast.
    apply map_ext. intro i. apply mean_perm.
    unfold TrendGenerator.bin_scores. apply Permutation_map.
    now apply filter_perm.
Qed.

Section TrendOrder.

Variable to_datetime : string -> option Z.

Lemma frame_of_perm (data data' : list SentimentResult.t) :
  Permutation data data' ->
  match TrendGenerator.frame_of to_datetime data,
        TrendGenerator.frame_of to_datetime data' with
  | Some rows, Some rows' => Permutation rows rows'
  | None, None => True
  | _, _ => False
  end.
Proof.
  induction 1 as [| x l l' _ IH | x y l | l l' l'' _ IH1 _ IH2].
  - cbn. constructor.
  - cbn.
    destruct (TrendGenerator.timestamp_of to_datetime
                (SentimentResult.timestamp x));
      destruct (TrendGenerator.frame_of to_datetime l),
               (TrendGenerator.frame_of to_datetime l'); try tauto.
    now constructor.
  - cbn.
    destruct (TrendGenerator.timestamp_of to_datetime
                (SentimentResult.timestamp x)),
             (TrendGenerator.timestamp_of to_datetime
                (SentimentResult.timestamp y)),
             (TrendGenerator.frame_of to_datetime l); try tauto.
    apply perm_swap.
  - destruct (TrendGenerator.frame_of to_datetime l) as [r |],
      (TrendGenerator.frame_of to_datetime l') as [r' |],
      (TrendGenerator.frame_of to_datetime l'') as [r'' |]; try tauto.
    now transitivity r'.
Qed.

Lemma resampled_perm (self : TrendGenerator.t)
    (data data' : list SentimentResult.t) :
  Permutation data data' ->
  TrendGenerator.resampled to_datetime self data
  = TrendGenerator.resampled to_datetime self data'.
Proof.
  intro H. apply frame_of_perm in H. unfold TrendGenerator.resampled.
  destruct (TrendGenerator.frame_of _ data) as [rows |],
    (TrendGenerator.frame_of _ data') as [rows' |]; try tauto.
  f_equal. f_equal. apply resample_mean_perm; try apply sort_values_sorted.
  rewrite (sort_values_perm rows), (sort_values_perm rows'). exact H.
Qed.

(** The order in which the results are passed does not matter: two
    arrangements of one batch give the same trend signal and the same log
    entries. *)
Theorem generate_trend_signals_any_order (self : TrendGenerator.t)
    (now : Z) (data data' : list SentimentResult.t) (w : World) :
  Permutation data data' ->
  TrendGenerator.generate_trend_signals to_datetime self now data w
  = TrendGenerator.generate_trend_signals to_datetime self now data' w.
Proof.
  intro H. unfold TrendGenerator.generate_trend_signals.
  now rewrite (Permutation_length H), (resampled_perm self data data' H).
Qed.

End TrendOrder.

Lemma generate_trend_signals_any_order_witness :
  TrendGenerator.generate_trend_signals no_parser default_trend_generator 0
    hourly_results empty_world
  = TrendGenerator.generate_trend_signals no_parser default_trend_generator 0
      (rev hourly_results) empty_world.
Proof.
  apply generate_trend_signals_any_order. apply Permutation_rev.
Defined.

(** ** Analyzer: the calls of the scorers *)

Section ScorerCalls.

Variable polarity_scores : string -> option Q.
Variable bert_pipeline : string -> option (string * Q).
Variable set_iter : list string -> list string.

Local Abbreviation analyze_text :=
  (Analyzer.analyze_text polarity_scores bert_pipeline set_iter).

(** One analysis calls each scorer at most once: no scorer on a cache
    hit; otherwise the lexicon scorer on the text as given and, only if
    that answered, the model scorer on the cleaned text of at most 100
    characters. *)
Theorem analyze_text_scorer_calls (text source symbol : string)
    (pub_date : option PyTime) (now : Z) (w : World) :
  let out := analyze_text text source symbol pub_date now w in
  let cleaned := Analyzer._clean_and_truncate_text text 100 in
  exists entries,
    events (snd out) = events w ++ entries
    /\ (String.length cleaned <= 100)%nat
    /\ match find (DatabaseHandler.selected source text) (cache w),
             polarity_scores text with
       | Some _, _ => entries = []
       | None, None =>
           filter is_scorer_call entries = [VaderCall text]
           /\ fst out = None
       | None, Some _ =>
           filter is_scorer_call entries = [VaderCall text; BertCall cleaned]
           /\ fst out <> None
       end.
Proof.
  cbv zeta.
  destruct (find (DatabaseHandler.selected source text) (cache w))
    as [row |] eqn:Hfind.
  - rewrite (analyze_text_hit _ _ _ _ _ _ _ _ _ _ Hfind).
    exists []. cbn [snd]. rewrite app_nil_r.
    split; [reflexivity |]. split; [apply prefix_to_length | reflexivity].
  - destruct (polarity_scores text) as [v |] eqn:Hv.
    + rewrite (analyze_text_miss _ _ _ _ _ _ _ _ _ _ Hfind Hv). cbv zeta.
      cbn [fst snd].
      unfold Analyzer.analyze_bert, DatabaseHandler.cache_sentiment_result,
        fresh_result.
      cbn [SentimentResult.timestamp].
      destruct (bert_pipeline _) as [res |];
        destruct (Analyzer.timestamp_for pub_date now) as [us | s];
        unfold bind, log_error, emit, ret;
        cbn [fst snd cache events];
        eexists; (split; [rewrite <- ?app_assoc; cbn [app]; reflexivity |]);
        (split; [apply prefix_to_length |]);
        (split; [reflexivity | discriminate]).
    + rewrite (analyze_text_vader_raises _ _ _ _ _ _ _ _ _ Hfind Hv).
      eexists. cbn [fst snd events]. split.
      * rewrite <- app_assoc. cbn [app]. reflexivity.
      * split; [apply prefix_to_length |]. split; reflexivity.
Qed.

End ScorerCalls.

(** ** TrendGenerator: an unreadable timestamp *)

Section TrendFailure.

Variable to_datetime : string -> option Z.

Lemma frame_of_unreadable (data : list SentimentResult.t)
    (sr : SentimentResult.t) (s : string) :
  In sr data -> SentimentResult.timestamp sr = TimeStr s ->
  to_datetime s = None ->
  TrendGenerator.frame_of to_datetime data = None.
Proof.
  intros Hin Hts Hparse. induction data as [| x r IH]; [contradiction |].
  cbn. destruct Hin as [-> | Hin].
  - rewrite Hts. cbn. now rewrite Hparse.
  - rewrite (IH Hin).
    now destruct (TrendGenerator.timestamp_of _ _).
Qed.

(** One timestamp that cannot be converted fails the whole batch: with
    enough items for the windows, the call returns [None] and logs the
    error, whatever the other items are. *)
Theorem generate_trend_signals_unreadable_timestamp
    (self : TrendGenerator.t) (now : Z) (data : list SentimentResult.t)
    (w : World) (sr : SentimentResult.t) (s : string) :
  In sr data -> SentimentResult.timestamp sr = TimeStr s ->
  to_datetime s = None ->
  (TrendGenerator.max_window self <= List.length data)%nat ->
  TrendGenerator.generate_trend_signals to_datetime self now data w
  = (None, logged w [LogError "generating trend signals"]).
Proof.
  intros Hin Hts Hparse Hlen.
  unfold TrendGenerator.generate_trend_signals, TrendGenerator.resampled.
  rewrite (frame_of_unreadable data sr s Hin Hts Hparse).
  replace (List.length data =? 0)%nat with false.
  - replace (List.length data <? _)%nat with false
      by (symmetry; apply Nat.ltb_ge; exact Hlen).
    reflexivity.
  - symmetry. apply Nat.eqb_neq. destruct data; [contradiction | discriminate].
Qed.

End TrendFailure.

Lemma generate_trend_signals_unreadable_timestamp_witness :
  TrendGenerator.generate_trend_signals no_parser default_trend_generator 0
    (scraped_result :: hourly_results) empty_world
  = (None, logged empty_world [LogError "generating trend signals"]).
Proof.
  apply (generate_trend_signals_unreadable_timestamp no_parser
           default_trend_generator 0 (scraped_result :: hourly_results)
           empty_world scraped_result "yesterday").
  - now left.
  - reflexivity.
  - reflexivity.
  - cbn. lia.
Defined.
